(** * research-search: the Crossref search form, verified against app.py

    A shallow embedding of [src/app.py]: the normalising loop of
    [fetch_crossref_results], the two Flask views [index] and
    [download_csv], and the process-wide cache they share.

    Conventions of the embedding.
    - A Python [str] is a Rocq [string] holding the UTF-8 form of the
      text; operations that work on characters ([s[0]], [strip], [int],
      iteration) first cut the bytes into characters with [str_chars].
      A [str] may hold a surrogate code point (U+D800 to U+DFFF), which
      [json.loads] gives for a lone escape: it is held as the three
      bytes that the UTF-8 scheme gives it, and [encode_utf8] refuses
      it as [str.encode] does.
    - A value decoded by [response.json()] is a [json] term; a Python
      [dict] is the association list of its items in insertion order and
      [lookup] returns the first binding of a key.
    - Code that may raise returns a [result]; the exception classes that
      the views distinguish are the constructors of [exn].
    - The outside world (the HTTP exchange with Crossref) is a function
      from the request issued to the reply received.
    - A [DataFrame] is the list of its rows, each cell the value that
      the frame stores.  pandas stores each column under a type chosen
      from the values given ([convert_column]): a column of numbers
      that holds a float or a null is stored as floats.
    - [os.linesep], which pandas hands to [csv.writer] as line
      terminator, is a parameter of the writer and of the download
      view. *)

From Stdlib Require Import String Ascii List ZArith NArith Bool Lia.
From Stdlib Require Import Floats.SpecFloat.
From Stdlib Require Import Numbers.DecimalString Numbers.DecimalZ.
Import ListNotations.

Set Warnings "-register-all".

Local Open Scope string_scope.
Local Open Scope Z_scope.

(* ================================================================= *)
(** ** Exceptions and the error monad *)

(** The exception classes that can leave the code of app.py.
    [HTTPError], [ConnectionError] and [JSONDecodeError] are the
    subclasses of [requests.RequestException] raised by, respectively,
    [raise_for_status], [requests.get] and [response.json].
    [ValueError] and [RecursionError] are the builtin exceptions that
    [response.json] does not wrap: an integer literal of more than 4300
    digits, a document nested deeper than the interpreter allows.
    [OverflowError] is raised when pandas converts an integer that no
    float can hold; [UnicodeEncodeError] is raised by [str.encode]. *)
Inductive exn : Type :=
| HTTPError (status_code : Z)
| ConnectionError
| JSONDecodeError
| ValueError
| RecursionError
| OverflowError
| UnicodeEncodeError
| AttributeError
| TypeError
| KeyError
| IndexError.

Definition is_RequestException (e : exn) : bool :=
  match e with
  | HTTPError _ | ConnectionError | JSONDecodeError => true
  | _ => false
  end.

Inductive result (A : Type) : Type :=
| Ok (a : A)
| Raise (e : exn).
Arguments Ok {A} a.
Arguments Raise {A} e.

Definition bind {A B : Type} (m : result A) (k : A -> result B) : result B :=
  match m with
  | Ok a => k a
  | Raise e => Raise e
  end.

Notation "x <- m ;; k" := (bind m (fun x => k))
  (at level 61, m at next level, right associativity).

(** A [for] loop whose body may raise: the first exception ends it. *)
Fixpoint for_each {A B : Type} (body : A -> result B) (xs : list A)
  : result (list B) :=
  match xs with
  | [] => Ok []
  | x :: rest =>
      y <- body x ;;
      ys <- for_each body rest ;;
      Ok (y :: ys)
  end.

(* ================================================================= *)
(** ** Text *)

Definition LF : ascii := Ascii.ascii_of_nat 10.
Definition CR : ascii := Ascii.ascii_of_nat 13.
Definition comma : ascii := ","%char.
Definition dquote : ascii := Ascii.ascii_of_nat 34.

(** The placeholder of a missing year, U+2014 EM DASH, in UTF-8. *)
Definition em_dash : string :=
  String (Ascii.ascii_of_nat 226)
    (String (Ascii.ascii_of_nat 128) (String (Ascii.ascii_of_nat 148) "")).

Definition is_continuation (a : ascii) : bool :=
  let n := N_of_ascii a in ((128 <=? n) && (n <? 192))%N.

Definition starts_with_continuation (s : string) : bool :=
  match s with
  | String a _ => is_continuation a
  | EmptyString => false
  end.

(** The characters of a text: every byte that is not a continuation byte
    opens a character and takes the continuation bytes after it. *)
Fixpoint str_chars (s : string) : list string :=
  match s with
  | EmptyString => []
  | String a rest =>
      match str_chars rest with
      | c :: cs =>
          if starts_with_continuation rest
          then String a c :: cs
          else String a "" :: c :: cs
      | [] => [String a ""]
      end
  end.

(** The code point of one character. *)
Definition code_point (c : string) : N :=
  match c with
  | EmptyString => 0%N
  | String a rest =>
      let b := N_of_ascii a in
      let lead :=
        if (b <? 128)%N then b
        else if (b <? 224)%N then (b mod 32)%N
        else if (b <? 240)%N then (b mod 16)%N
        else (b mod 8)%N in
      fold_left (fun acc x => (acc * 64 + N_of_ascii x mod 64)%N)
                (list_ascii_of_string rest) lead
  end.

(** [str.isspace] of one character. *)
Definition is_space (c : string) : bool :=
  let n := code_point c in
  (((9 <=? n) && (n <=? 13)) || ((28 <=? n) && (n <=? 32))
   || (n =? 133) || (n =? 160) || (n =? 5760)
   || ((8192 <=? n) && (n <=? 8202))
   || (n =? 8232) || (n =? 8233) || (n =? 8239) || (n =? 8287)
   || (n =? 12288))%N.

Fixpoint lstrip_chars (cs : list string) : list string :=
  match cs with
  | c :: rest => if is_space c then lstrip_chars rest else cs
  | [] => []
  end.

Definition concat_str (parts : list string) : string :=
  fold_right String.append "" parts.

(** [s.strip()] *)
Definition strip (s : string) : string :=
  concat_str (rev (lstrip_chars (rev (lstrip_chars (str_chars s))))).

(** A surrogate code point is held as the byte 237, a byte from 160 to
    191 and a continuation byte; no other character starts with these
    two bytes.  [surrogate_after lead s] looks for one in [s], [lead]
    telling whether the byte before [s] was 237. *)
Fixpoint surrogate_after (lead : bool) (s : string) : bool :=
  match s with
  | EmptyString => false
  | String a rest =>
      (lead && (160 <=? N_of_ascii a)%N && (N_of_ascii a <? 192)%N)
      || surrogate_after (N_of_ascii a =? 237)%N rest
  end.

Definition has_surrogate (s : string) : bool := surrogate_after false s.

(** [text.encode("utf-8")]: the bytes of the text, which are the text
    itself here; a surrogate cannot be encoded. *)
Definition encode_utf8 (text : string) : result string :=
  if has_surrogate text then Raise UnicodeEncodeError else Ok text.

(** [sep.join(parts)] *)
Fixpoint join (sep : string) (parts : list string) : string :=
  match parts with
  | [] => ""
  | [p] => p
  | p :: rest => p ++ sep ++ join sep rest
  end.

(** [str(n)] for an [int]. *)
Definition str_of_int (n : Z) : string := NilZero.string_of_int (Z.to_int n).

(* ----------------------------------------------------------------- *)
(** *** [int(s)] *)

(** Zero digits of the decimal-digit blocks of the Unicode database
    (version 14.0, the one of CPython 3.11); a decimal digit is one of
    the ten code points starting at a zero. *)
Definition decimal_zeros : list N :=
  [48; 1632; 1776; 1984; 2406; 2534; 2662; 2790; 2918; 3046; 3174; 3302;
   3430; 3558; 3664; 3792; 3872; 4160; 4240; 6112; 6160; 6470; 6608; 6784;
   6800; 6992; 7088; 7232; 7248; 42528; 43216; 43264; 43472; 43504; 43600;
   44016; 65296; 66720; 68912; 69734; 69872; 69942; 70096; 70384; 70736;
   70864; 71248; 71360; 71472; 71904; 72016; 72784; 73040; 73120; 92768;
   92864; 93008; 120782; 120792; 120802; 120812; 120822; 123200; 123632;
   125264; 130032]%N.

Definition decimal_value (n : N) : option Z :=
  match find (fun z => (z <=? n) && (n <? z + 10))%N decimal_zeros with
  | Some z => Some (Z.of_N (n - z))
  | None => None
  end.

Inductive int_token : Type :=
| TSpace | TPlus | TMinus | TUnderscore | TDigit (d : Z) | TOther.

(** What [int] sees in one character: the white space it skips is
    [isspace] without the four ASCII separators 28..31. *)
Definition int_token_of (c : string) : int_token :=
  let n := code_point c in
  if is_space c && negb ((28 <=? n) && (n <=? 31))%N then TSpace
  else if (n =? 43)%N then TPlus
  else if (n =? 45)%N then TMinus
  else if (n =? 95)%N then TUnderscore
  else match decimal_value n with
       | Some d => TDigit d
       | None => TOther
       end.

Fixpoint skip_spaces (ts : list int_token) : list int_token :=
  match ts with
  | TSpace :: rest => skip_spaces rest
  | _ => ts
  end.

(** Digits with single underscores between them; returns the value, the
    number of digits and what follows. *)
Fixpoint scan_digits (after_underscore : bool) (acc : Z) (count : nat)
         (ts : list int_token) : option (Z * nat * list int_token) :=
  match ts with
  | TDigit d :: rest => scan_digits false (10 * acc + d) (S count) rest
  | TUnderscore :: rest =>
      if after_underscore then None else scan_digits true acc count rest
  | _ => if after_underscore then None else Some (acc, count, ts)
  end.

(** [sys.get_int_max_str_digits()] *)
Definition int_max_str_digits : nat := 4300.

(** The digits of [int(s)], after the sign: no leading underscore, at
    least one digit, at most [int_max_str_digits] of them, and only
    white space after them. *)
Definition int_of_tokens (negative : bool) (ts : list int_token) : option Z :=
  match ts with
  | TUnderscore :: _ => None
  | _ =>
      match scan_digits false 0 0 ts with
      | Some (v, count, rest) =>
          if (count =? 0)%nat then None
          else if (int_max_str_digits <? count)%nat then None
          else match skip_spaces rest with
               | [] => Some (if negative then - v else v)
               | _ => None
               end
      | None => None
      end
  end.

(** [int(s)] in base ten: [None] stands for [ValueError]. *)
Definition py_int (s : string) : option Z :=
  match skip_spaces (map int_token_of (str_chars s)) with
  | TPlus :: rest => int_of_tokens false rest
  | TMinus :: rest => int_of_tokens true rest
  | ts => int_of_tokens false ts
  end.

(* ================================================================= *)
(** ** Values decoded from JSON and the Python operations on them *)

Inductive json : Type :=
| JNull
| JBool (b : bool)
| JInt (n : Z)
| JFloat (f : spec_float)
| JStr (s : string)
| JArr (items : list json)
| JObj (fields : list (string * json)).

Fixpoint lookup {A : Type} (key : string) (fields : list (string * A))
  : option A :=
  match fields with
  | [] => None
  | (k, v) :: rest => if String.eqb k key then Some v else lookup key rest
  end.

(** Truth value of an object, as tested by [or], [and], [if] and [not]. *)
Definition truthy (v : json) : bool :=
  match v with
  | JNull => false
  | JBool b => b
  | JInt n => negb (n =? 0)
  | JFloat (S754_zero _) => false
  | JFloat _ => true
  | JStr s => negb (String.eqb s "")
  | JArr items => match items with [] => false | _ => true end
  | JObj fields => match fields with [] => false | _ => true end
  end.

(** [a or b], with [b] already evaluated. *)
Definition py_or (a b : json) : json := if truthy a then a else b.

(** [v.get(key, default)]: only a [dict] has the method. *)
Definition dict_get (v : json) (key : string) (default : json) : result json :=
  match v with
  | JObj fields =>
      match lookup key fields with
      | Some x => Ok x
      | None => Ok default
      end
  | _ => Raise AttributeError
  end.

(** [v[0]] *)
Definition getitem0 (v : json) : result json :=
  match v with
  | JArr (x :: _) => Ok x
  | JArr [] => Raise IndexError
  | JStr s =>
      match str_chars s with
      | c :: _ => Ok (JStr c)
      | [] => Raise IndexError
      end
  | JObj _ => Raise KeyError
  | _ => Raise TypeError
  end.

(** The elements that [for x in v] visits. *)
Definition py_iter (v : json) : result (list json) :=
  match v with
  | JArr items => Ok items
  | JStr s => Ok (map JStr (str_chars s))
  | JObj fields => Ok (map (fun kv => JStr (fst kv)) fields)
  | _ => Raise TypeError
  end.

(** [v.strip()]: only a [str] has the method. *)
Definition str_strip (v : json) : result string :=
  match v with
  | JStr s => Ok (strip s)
  | _ => Raise AttributeError
  end.

(* ================================================================= *)
(** ** The normaliser: the loop of [fetch_crossref_results] *)

(** One element of [records]: the dict with keys Title, DOI, Year and
    Authors.  The first three hold whatever object the item supplied;
    Authors is always a [str] built by the loop. *)
Record record : Type := mk_record {
  Title : json;
  DOI : json;
  Year : json;
  Authors : string
}.

(** A [DataFrame] with the columns Title, DOI, Year and Authors: its
    rows, in order, each cell the value that the frame stores. *)
Definition DataFrame : Type := list record.

(** [df.empty] *)
Definition empty (df : DataFrame) : bool :=
  match df with [] => true | _ => false end.

(** Lines 32-33. *)
Definition item_title (item : json) : result json :=
  t <- dict_get item "title" JNull ;;
  let title_list := py_or t (JArr []) in
  if truthy title_list then getitem0 title_list else Ok (JStr "Untitled").

(** Line 34. *)
Definition item_doi (item : json) : result json :=
  dict_get item "DOI" (JStr "").

(** Line 35: [or] evaluates its right operand only when the left one is
    false. *)
Definition item_published (item : json) : result json :=
  print <- dict_get item "published-print" JNull ;;
  if truthy print then Ok print
  else
    online <- dict_get item "published-online" JNull ;;
    Ok (py_or online (JObj [])).

(** Lines 36-37: the condition [date_parts and date_parts[0]] is
    evaluated before [date_parts[0][0]]. *)
Definition published_year (published : json) : result json :=
  d <- dict_get published "date-parts" JNull ;;
  let date_parts := py_or d (JArr [JArr []]) in
  if truthy date_parts then
    first <- getitem0 date_parts ;;
    if truthy first then
      first' <- getitem0 date_parts ;;
      getitem0 first'
    else Ok (JStr em_dash)
  else Ok (JStr em_dash).

(** Lines 35-37. *)
Definition item_year (item : json) : result json :=
  published <- item_published item ;;
  published_year published.

(** Lines 42-44: the name of one author, possibly empty. *)
Definition author_full_name (author : json) : result string :=
  g <- dict_get author "given" (JStr "") ;;
  given <- str_strip g ;;
  f <- dict_get author "family" (JStr "") ;;
  family <- str_strip f ;;
  Ok (join " " (filter (fun part => negb (String.eqb part "")) [given; family])).

(** Lines 39-47. *)
Definition item_authors (item : json) : result string :=
  authors <- dict_get item "author" (JArr []) ;;
  elements <- py_iter authors ;;
  full_names <- for_each author_full_name elements ;;
  let author_names := filter (fun n => negb (String.eqb n "")) full_names in
  Ok (match author_names with
      | [] => "Unknown"
      | _ => join "; " author_names
      end).

(** The body of the loop, lines 32-54. *)
Definition normalize_item (item : json) : result record :=
  title <- item_title item ;;
  doi <- item_doi item ;;
  year <- item_year item ;;
  author_str <- item_authors item ;;
  Ok {| Title := title; DOI := doi; Year := year; Authors := author_str |}.

(** Lines 30-54: the list [records] after the loop. *)
Definition normalize (items : list json) : result (list record) :=
  for_each normalize_item items.

(* ================================================================= *)
(** ** Building the frame: [pd.DataFrame.from_records(records)] *)

Definition INT64_MIN : Z := -9223372036854775808.
Definition INT64_MAX : Z := 9223372036854775807.
Definition UINT64_MAX : Z := 18446744073709551615.

Definition is_nan (f : spec_float) : bool :=
  match f with S754_nan => true | _ => false end.

(** The binary64 number nearest to an integer. *)
Definition nearest_float (n : Z) : spec_float := binary_normalize 53 1024 n 0 false.

(** [float(n)]: an integer beyond the range of the floats raises. *)
Definition float_of_int (n : Z) : result spec_float :=
  match nearest_float n with
  | S754_infinity _ => Raise OverflowError
  | f => Ok f
  end.

(** What pandas has seen of a column while it chooses its type
    ([lib.maybe_convert_objects]). *)
Record seen : Type := mk_seen {
  null_ : bool;
  nan_ : bool;
  float_ : bool;
  int_ : bool;
  sint_ : bool;
  uint_ : bool;
  bool_ : bool;
  object_ : bool
}.

Definition nothing_seen : seen :=
  mk_seen false false false false false false false false.

(** The scan of a column, value by value.  Every integer met is
    converted to a float.  The scan stops at the first value that is no
    number ([str], [list], [dict]) and, as long as no [None] was met, at
    the first integer that fits neither int64 nor uint64 or that mixes
    a negative integer with one above int64: the column is then a
    column of objects. *)
Fixpoint scan (st : seen) (column : list json) : result seen :=
  match column with
  | [] => Ok st
  | val :: rest =>
      match val with
      | JNull =>
          scan (mk_seen true (nan_ st) (float_ st) (int_ st) (sint_ st)
                        (uint_ st) (bool_ st) (object_ st)) rest
      | JFloat f =>
          if is_nan f
          then scan (mk_seen (null_ st) true (float_ st) (int_ st) (sint_ st)
                             (uint_ st) (bool_ st) (object_ st)) rest
          else scan (mk_seen (null_ st) (nan_ st) true (int_ st) (sint_ st)
                             (uint_ st) (bool_ st) (object_ st)) rest
      | JBool _ =>
          scan (mk_seen (null_ st) (nan_ st) (float_ st) (int_ st) (sint_ st)
                        (uint_ st) true (object_ st)) rest
      | JInt n =>
          _ <- float_of_int n ;;
          if null_ st
          then scan (mk_seen (null_ st) (nan_ st) (float_ st) true (sint_ st)
                             (uint_ st) (bool_ st) (object_ st)) rest
          else
            let sint := sint_ st || ((INT64_MIN <=? n) && (n <? 0)) in
            let uint := uint_ st || ((INT64_MAX <? n) && (n <=? UINT64_MAX)) in
            if (uint && sint) || (UINT64_MAX <? n) || (n <? INT64_MIN)
            then Ok (mk_seen (null_ st) (nan_ st) (float_ st) true sint uint
                             (bool_ st) true)
            else scan (mk_seen (null_ st) (nan_ st) (float_ st) true sint uint
                               (bool_ st) (object_ st)) rest
      | JStr _ | JArr _ | JObj _ =>
          Ok (mk_seen (null_ st) (nan_ st) (float_ st) (int_ st) (sint_ st)
                      (uint_ st) (bool_ st) true)
      end
  end.

(** The column is stored as float64 when it holds numbers only, no
    [bool], and a float, a NaN or an integer beside a [None]; otherwise
    its values are stored as given (as objects, as int64 or uint64, or
    as booleans). *)
Definition stored_as_floats (st : seen) : bool :=
  negb (bool_ st) && negb (object_ st)
  && (float_ st || nan_ st || (null_ st && int_ st)).

(** A value in a float64 column: [None] becomes NaN. *)
Definition as_float (v : json) : json :=
  match v with
  | JNull => JFloat S754_nan
  | JInt n => JFloat (nearest_float n)
  | _ => v
  end.

Definition convert_column (column : list json) : result (list json) :=
  st <- scan nothing_seen column ;;
  Ok (if stored_as_floats st then map as_float column else column).

Fixpoint frame_of (titles dois years : list json) (authors : list string)
  : DataFrame :=
  match titles, dois, years, authors with
  | t :: titles', d :: dois', y :: years', a :: authors' =>
      {| Title := t; DOI := d; Year := y; Authors := a |}
      :: frame_of titles' dois' years' authors'
  | _, _, _, _ => []
  end.

(** Line 56: one row per record, in their order, each column stored
    under the type chosen for it.  The column Authors holds [str] only
    and is stored as given. *)
Definition from_records (records : list record) : result DataFrame :=
  titles <- convert_column (map Title records) ;;
  dois <- convert_column (map DOI records) ;;
  years <- convert_column (map Year records) ;;
  Ok (frame_of titles dois years (map Authors records)).

(* ================================================================= *)
(** ** The search client: [fetch_crossref_results] *)

(** The arguments of [requests.get]. *)
Record get_request : Type := mk_get_request {
  url : string;
  param_query : string;
  param_filter : string;
  param_rows : Z;
  timeout : Z
}.

(** What [response.json()] makes of the body of a response: the value
    decoded from a JSON document; or the body is no JSON document; or
    it is one that holds an integer of more than 4300 digits, which
    [int] refuses to convert; or one nested deeper than the recursion
    limit. *)
Inductive body : Type :=
| Json (data : json)
| NotJson
| IntegerTooLong
| NestedTooDeep.

(** What [requests.get] does: it raises (no route, refused connection,
    timeout) or returns a response. *)
Inductive http_reply : Type :=
| NoReply
| Reply (status_code : Z) (content : body).

Definition world : Type := get_request -> http_reply.

Definition CROSSREF_API_URL : string := "https://api.crossref.org/works".

(** Lines 19-24. *)
Definition crossref_request (keyword : string) (rows : Z) : get_request :=
  {| url := CROSSREF_API_URL;
     param_query := keyword;
     param_filter := "from-pub-date:2015";
     param_rows := rows;
     timeout := 10 |}.

(** [response.raise_for_status()]: client and server errors raise. *)
Definition raise_for_status (status_code : Z) : result unit :=
  if (400 <=? status_code) && (status_code <? 600)
  then Raise (HTTPError status_code)
  else Ok tt.

(** [response.json()]: requests turns the decoder's JSONDecodeError
    into its own, a RequestException, and lets the other exceptions of
    [json.loads] through. *)
Definition response_json (content : body) : result json :=
  match content with
  | Json data => Ok data
  | NotJson => Raise JSONDecodeError
  | IntegerTooLong => Raise ValueError
  | NestedTooDeep => Raise RecursionError
  end.

(** Lines 17-56. *)
Definition fetch_crossref_results (get : world) (keyword : string) (rows : Z)
  : result DataFrame :=
  match get (crossref_request keyword rows) with
  | NoReply => Raise ConnectionError
  | Reply status_code content =>
      _ <- raise_for_status status_code ;;
      data <- response_json content ;;
      message <- dict_get data "message" (JObj []) ;;
      items <- dict_get message "items" (JArr []) ;;
      elements <- py_iter items ;;
      records <- normalize elements ;;
      from_records records
  end.

(* ================================================================= *)
(** ** Writing a frame as CSV: [DataFrame.to_csv(buffer, index=False)] *)

Fixpoint occurs (a : ascii) (s : string) : bool :=
  match s with
  | EmptyString => false
  | String b rest => Ascii.eqb a b || occurs a rest
  end.

(** The values of [os.linesep]: a line feed on POSIX systems, a carriage
    return and a line feed on Windows. *)
Definition posix_linesep : string := String LF "".
Definition windows_linesep : string := String CR (String LF "").

Definition platform_linesep (s : string) : Prop :=
  s = posix_linesep \/ s = windows_linesep.

Definition is_str (v : json) : bool :=
  match v with JStr _ => true | _ => false end.

Section Writer.

(** The line terminator that [to_csv] hands to [csv.writer]: the
    [os.linesep] of the platform the application runs on. *)
Variable lineterminator : string.

(** The characters that make [csv.writer] quote a field under
    [QUOTE_MINIMAL]: the delimiter, the quote character and the
    characters of the line terminator. *)
Definition is_special (a : ascii) : bool :=
  Ascii.eqb a comma || Ascii.eqb a dquote || occurs a lineterminator.

Fixpoint has_special (s : string) : bool :=
  match s with
  | EmptyString => false
  | String a rest => is_special a || has_special rest
  end.

(** Every quote character is written twice. *)
Fixpoint double_quotes (s : string) : string :=
  match s with
  | EmptyString => ""
  | String a rest =>
      if Ascii.eqb a dquote
      then String dquote (String dquote (double_quotes rest))
      else String a (double_quotes rest)
  end.

Definition csv_field (s : string) : string :=
  if has_special s
  then String dquote (double_quotes s ++ String dquote "")
  else s.

(** [writer.writerow(cells)]; a row made of one empty field is written
    as a pair of quotes. *)
Definition csv_row (cells : list string) : string :=
  match cells with
  | [EmptyString] => String dquote (String dquote lineterminator)
  | _ => join "," (map csv_field cells) ++ lineterminator
  end.

Definition digits_of (n : Z) : nat := String.length (str_of_int (Z.abs n)).

(** The text of one cell: a [str] is written as it is, an [int] as
    [str(value)], which is defined up to [int_max_str_digits] digits,
    and [None] as nothing (the default [na_rep]).  The text of the
    other values (a float, a [bool], a container) depends on number
    formatting and on Python's [repr]; it is outside this embedding and
    [None] here. *)
Definition cell_text (v : json) : option string :=
  match v with
  | JStr s => Some s
  | JInt n =>
      if (digits_of n <=? int_max_str_digits)%nat
      then Some (str_of_int n) else None
  | JNull => Some ""
  | _ => None
  end.

Definition row_cells (r : record) : option (list string) :=
  match cell_text (Title r), cell_text (DOI r), cell_text (Year r) with
  | Some t, Some d, Some y => Some [t; d; y; Authors r]
  | _, _, _ => None
  end.

Fixpoint frame_cells (df : DataFrame) : option (list (list string)) :=
  match df with
  | [] => Some []
  | r :: rest =>
      match row_cells r, frame_cells rest with
      | Some cells, Some others => Some (cells :: others)
      | _, _ => None
      end
  end.

Definition columns : list string := ["Title"; "DOI"; "Year"; "Authors"].

(** The header row, then one row per record. *)
Definition to_csv (df : DataFrame) : option string :=
  match frame_cells df with
  | Some rows => Some (csv_row columns ++ concat_str (map csv_row rows))
  | None => None
  end.

End Writer.


(* ================================================================= *)
(** ** Reading CSV back *)

Inductive reader_state : Type :=
| StartRecord
| AfterCR
| StartField
| InField
| InQuotedField
| QuoteInQuotedField.

(** The reader of the dialect written above: comma-separated fields,
    fields in double quotes with doubled quotes inside.  With
    [universal = false] a record ends at the writer's line terminator
    and a carriage return is data; with [universal = true] a record also
    ends at a carriage return and at the pair CR LF, as [csv.reader]
    does. *)
Fixpoint csv_read_from (universal : bool) (st : reader_state)
         (field : string) (fields : list string) (text : string)
  : list (list string) :=
  match text with
  | EmptyString =>
      match st with
      | StartRecord | AfterCR => []
      | _ => [(fields ++ [field])%list]
      end
  | String c rest =>
      let ends_record := Ascii.eqb c LF || (universal && Ascii.eqb c CR) in
      let next := if Ascii.eqb c CR then AfterCR else StartRecord in
      match st with
      | AfterCR =>
          if Ascii.eqb c LF then csv_read_from universal StartRecord "" [] rest
          else if ends_record then [] :: csv_read_from universal next "" [] rest
          else if Ascii.eqb c dquote
          then csv_read_from universal InQuotedField "" [] rest
          else if Ascii.eqb c comma
          then csv_read_from universal StartField "" [""] rest
          else csv_read_from universal InField (String c "") [] rest
      | StartRecord =>
          if ends_record then [] :: csv_read_from universal next "" [] rest
          else if Ascii.eqb c dquote
          then csv_read_from universal InQuotedField "" [] rest
          else if Ascii.eqb c comma
          then csv_read_from universal StartField "" [""] rest
          else csv_read_from universal InField (String c "") [] rest
      | StartField =>
          if ends_record
          then (fields ++ [""])%list :: csv_read_from universal next "" [] rest
          else if Ascii.eqb c dquote
          then csv_read_from universal InQuotedField "" fields rest
          else if Ascii.eqb c comma
          then csv_read_from universal StartField "" (fields ++ [""])%list rest
          else csv_read_from universal InField (String c "") fields rest
      | InField =>
          if ends_record
          then (fields ++ [field])%list :: csv_read_from universal next "" [] rest
          else if Ascii.eqb c comma
          then csv_read_from universal StartField "" (fields ++ [field])%list rest
          else csv_read_from universal InField (field ++ String c "") fields rest
      | InQuotedField =>
          if Ascii.eqb c dquote
          then csv_read_from universal QuoteInQuotedField field fields rest
          else csv_read_from universal InQuotedField
                 (field ++ String c "") fields rest
      | QuoteInQuotedField =>
          if Ascii.eqb c dquote
          then csv_read_from universal InQuotedField
                 (field ++ String dquote "") fields rest
          else if ends_record
          then (fields ++ [field])%list :: csv_read_from universal next "" [] rest
          else if Ascii.eqb c comma
          then csv_read_from universal StartField "" (fields ++ [field])%list rest
          else csv_read_from universal InField (field ++ String c "") fields rest
      end
  end.

Definition csv_read (universal : bool) (text : string) : list (list string) :=
  csv_read_from universal StartRecord "" [] text.

(* ================================================================= *)
(** ** The views and the cache they share *)

(** The module globals [_latest_results_df] and [_latest_query]. *)
Record cache : Type := mk_cache {
  _latest_results_df : option DataFrame;
  _latest_query : option string
}.

(** Lines 13-14: the value of the globals when the module is loaded. *)
Definition initial_cache : cache :=
  {| _latest_results_df := None; _latest_query := None |}.

(** The methods that the route of [index] lets through. *)
Inductive http_method : Type := GET | HEAD | POST.

(** [request.method] and [request.form]. *)
Record request : Type := mk_request {
  method : http_method;
  form : list (string * string)
}.

(** What a view returns. *)
Inductive response : Type :=
| redirect (location : string)
| render_template (template_name : string)
                  (results : option DataFrame) (keyword : string) (rows : Z)
| send_file (data : option string) (mimetype : string)
            (as_attachment : bool) (download_name : string).

(** A view returns a response or lets an exception through. *)
Inductive outcome : Type :=
| Returns (r : response)
| Propagates (e : exn).

(** A request handled: the globals afterwards, the messages passed to
    [flash], the calls made to [requests.get], and the outcome. *)
Record handled : Type := mk_handled {
  globals : cache;
  flashed : list string;
  upstream_calls : list get_request;
  result_of : outcome
}.

(** [url_for("index")] *)
Definition url_for_index : string := "/".

(** [x or default] for an optional [str]. *)
Definition or_str (x : option string) (default : string) : string :=
  match x with
  | Some s => if String.eqb s "" then default else s
  | None => default
  end.

(** Lines 69-73. *)
Definition parse_rows (rows_raw : string) : Z :=
  match py_int rows_raw with
  | Some n => Z.max 1 (Z.min 100 n)
  | None => 10
  end.

(** Line 68: the keyword submitted, trimmed. *)
Definition form_keyword (req : request) : string :=
  strip (or_str (lookup "keyword" (form req)) "").

(** Lines 69-73: the number of rows asked of Crossref. *)
Definition form_rows (req : request) : Z :=
  parse_rows (or_str (lookup "rows" (form req)) "10").

(** Lines 94-99, with the globals as they are at that point. *)
Definition render_index (g : cache) (results_df : option DataFrame)
           (keyword : string) (rows : Z) : response :=
  render_template "index.html"
    (match results_df with
     | Some df => Some df
     | None => _latest_results_df g
     end)
    (or_str (Some keyword) (or_str (_latest_query g) ""))
    rows.

(** Lines 59-99. *)
Definition index (get : world) (req : request) (g : cache) : handled :=
  match method req with
  | POST =>
      let keyword := form_keyword req in
      let rows := form_rows req in
      if String.eqb keyword "" then
        {| globals := g;
           flashed := ["Please enter a research topic keyword."];
           upstream_calls := [];
           result_of := Returns (redirect url_for_index) |}
      else
        let calls := [crossref_request keyword rows] in
        match fetch_crossref_results get keyword rows with
        | Raise (HTTPError status_code) =>
            {| globals := g;
               flashed := ["Crossref API error: " ++ str_of_int status_code];
               upstream_calls := calls;
               result_of := Returns (redirect url_for_index) |}
        | Raise e =>
            if is_RequestException e then
              {| globals := g;
                 flashed :=
                   ["Unable to reach Crossref API. Please try again later."];
                 upstream_calls := calls;
                 result_of := Returns (redirect url_for_index) |}
            else
              {| globals := g;
                 flashed := [];
                 upstream_calls := calls;
                 result_of := Propagates e |}
        | Ok results_df =>
            if empty results_df then
              {| globals := g;
                 flashed := ["No results found for that query after 2015."];
                 upstream_calls := calls;
                 result_of :=
                   Returns (render_index g (Some results_df) keyword rows) |}
            else
              let g' := {| _latest_results_df := Some results_df;
                           _latest_query := Some keyword |} in
              {| globals := g';
                 flashed := [];
                 upstream_calls := calls;
                 result_of :=
                   Returns (render_index g' (Some results_df) keyword rows) |}
        end
  | _ =>
      {| globals := g;
         flashed := [];
         upstream_calls := [];
         result_of := Returns (render_index g None "" 10) |}
  end.

(** The [str] cells of a frame that hold a surrogate. *)
Definition cell_has_surrogate (v : json) : bool :=
  match v with
  | JStr s => has_surrogate s
  | _ => false
  end.

Definition record_has_surrogate (r : record) : bool :=
  cell_has_surrogate (Title r) || cell_has_surrogate (DOI r)
  || cell_has_surrogate (Year r) || has_surrogate (Authors r).

Definition frame_has_surrogate (df : DataFrame) : bool :=
  existsb record_has_surrogate df.

Section Application.

(** [os.linesep] on the platform that runs the application. *)
Variable linesep : string.

(** Lines 108-113: the text that [to_csv] writes into the buffer, then
    its UTF-8 form.  [encode] raises when the text holds a surrogate,
    which is when a [str] cell of the frame does: the header, the
    separators and what is written for the other values (digits,
    nothing for [None], [repr] for containers, which escapes
    surrogates) hold none.  For the frames whose text is described
    this is [encode_utf8] of that text ([csv_bytes_encode]). *)
Definition csv_bytes (df : DataFrame) : result (option string) :=
  if frame_has_surrogate df then Raise UnicodeEncodeError
  else Ok (to_csv linesep df).

(** Lines 102-117. *)
Definition download_csv (g : cache) : handled :=
  let nothing :=
    {| globals := g;
       flashed := ["No search results to download yet."];
       upstream_calls := [];
       result_of := Returns (redirect url_for_index) |} in
  match _latest_results_df g with
  | None => nothing
  | Some df =>
      if empty df then nothing
      else
        {| globals := g;
           flashed := [];
           upstream_calls := [];
           result_of :=
             match csv_bytes df with
             | Ok data =>
                 Returns (send_file data "text/csv" true
                                    "crossref_results.csv")
             | Raise e => Propagates e
             end |}
  end.

(** The two routes of the application. *)
Inductive route : Type :=
| Index (req : request)
| Download.

Definition serve (get : world) (r : route) (g : cache) : handled :=
  match r with
  | Index req => index get req g
  | Download => download_csv g
  end.

(** The cache after a sequence of requests, each with the world it
    meets. *)
Fixpoint run (g : cache) (history : list (world * route)) : cache :=
  match history with
  | [] => g
  | (get, r) :: rest => run (globals (serve get r g)) rest
  end.

End Application.

(* ================================================================= *)
(** ** Shapes of raw items and of records *)

Definition absent_or {A : Type} (p : A -> bool) (x : option A) : bool :=
  match x with
  | None => true
  | Some v => p v
  end.

(** A title is null or a list. *)
Definition title_shape (v : json) : bool :=
  match v with
  | JNull | JArr _ => true
  | _ => false
  end.

(** Date parts are null or a list whose first entry, if any, is a list. *)
Definition date_parts_shape (v : json) : bool :=
  match v with
  | JNull | JArr [] | JArr (JArr _ :: _) => true
  | _ => false
  end.

(** A publication date is null or an object. *)
Definition published_shape (v : json) : bool :=
  match v with
  | JNull => true
  | JObj fields => absent_or date_parts_shape (lookup "date-parts" fields)
  | _ => false
  end.

(** An author is an object whose name parts, where present, are text. *)
Definition author_shape (author : json) : bool :=
  match author with
  | JObj fields =>
      absent_or is_str (lookup "given" fields)
      && absent_or is_str (lookup "family" fields)
  | _ => false
  end.

Definition authors_shape (v : json) : bool :=
  match v with
  | JArr authors => forallb author_shape authors
  | _ => false
  end.

(** A work as Crossref documents it, every field optional. *)
Definition well_shaped (item : json) : bool :=
  match item with
  | JObj fields =>
      absent_or title_shape (lookup "title" fields)
      && absent_or published_shape (lookup "published-print" fields)
      && absent_or published_shape (lookup "published-online" fields)
      && absent_or authors_shape (lookup "author" fields)
  | _ => false
  end.

(** A publication date field that carries no date: it is missing or
    null, or an object whose date parts are missing, null, empty, or
    start with an empty entry. *)
Definition no_date_parts (field : option json) : bool :=
  match field with
  | None | Some JNull => true
  | Some (JObj f) =>
      match lookup "date-parts" f with
      | None | Some JNull | Some (JArr []) | Some (JArr (JArr [] :: _)) => true
      | _ => false
      end
  | _ => false
  end.


(** A record of the data model: title and identifier are text, the year
    is an integer (of at most [int_max_str_digits] digits) or text. *)
Definition data_model_record (r : record) : bool :=
  is_str (Title r) && is_str (DOI r)
  && match Year r with
     | JStr _ => true
     | JInt n => (digits_of n <=? int_max_str_digits)%nat
     | _ => false
     end.

(** The cells read back hold the values of the record: title, identifier
    and authors as they are, the year as it is or, for an integer, as
    the text that [int] converts back to it. *)
Definition same_values (r : record) (cells : list string) : Prop :=
  exists t d y,
    cells = [t; d; y; Authors r]
    /\ Title r = JStr t
    /\ DOI r = JStr d
    /\ (Year r = JStr y \/ exists n, Year r = JInt n /\ py_int y = Some n).






(** The [str] cells of a frame that hold a given byte. *)
Definition cell_holds (a : ascii) (v : json) : bool :=
  match v with
  | JStr s => occurs a s
  | _ => false
  end.

Definition record_holds (a : ascii) (r : record) : bool :=
  cell_holds a (Title r) || cell_holds a (DOI r) || cell_holds a (Year r)
  || occurs a (Authors r).

Definition frame_holds (a : ascii) (df : DataFrame) : bool :=
  existsb (record_holds a) df.

(** Bytes: those of ASCII, and those of the decimal writing of an
    integer. *)
Definition plain_byte (a : ascii) : bool := (N_of_ascii a <? 128)%N.

Definition sign_or_digit (a : ascii) : bool :=
  Ascii.eqb a "-"%char
  || ((48 <=? N_of_ascii a)%N && (N_of_ascii a <=? 57)%N).

Fixpoint all_bytes (p : ascii -> bool) (s : string) : bool :=
  match s with
  | EmptyString => true
  | String a rest => p a && all_bytes p rest
  end.

(** No cell holds the given character. *)
Definition free_of (a : ascii) (rows : list (list string)) : bool :=
  forallb (forallb (fun cell => negb (occurs a cell))) rows.

(** A field that the reader with the given setting reads as it was
    written: with universal line ends, a field written without quotes
    must hold no carriage return. *)
Definition reads_back (universal : bool) (lineterminator cell : string)
  : Prop :=
  universal = true ->
  has_special lineterminator cell = false -> occurs CR cell = false.

(** The tokens that [int] sees in the decimal writing of a number, and
    the value that its digits denote after the digits of [acc]. *)
Fixpoint digit_tokens (d : Decimal.uint) : list int_token :=
  match d with
  | Decimal.Nil => []
  | Decimal.D0 d => TDigit 0 :: digit_tokens d
  | Decimal.D1 d => TDigit 1 :: digit_tokens d
  | Decimal.D2 d => TDigit 2 :: digit_tokens d
  | Decimal.D3 d => TDigit 3 :: digit_tokens d
  | Decimal.D4 d => TDigit 4 :: digit_tokens d
  | Decimal.D5 d => TDigit 5 :: digit_tokens d
  | Decimal.D6 d => TDigit 6 :: digit_tokens d
  | Decimal.D7 d => TDigit 7 :: digit_tokens d
  | Decimal.D8 d => TDigit 8 :: digit_tokens d
  | Decimal.D9 d => TDigit 9 :: digit_tokens d
  end.

Fixpoint tokens_value (acc : Z) (ts : list int_token) : Z :=
  match ts with
  | TDigit k :: rest => tokens_value (10 * acc + k) rest
  | _ => acc
  end.

(* ================================================================= *)
(** ** Items as Crossref types them, and the errors of the loop *)

(** The exceptions that the operations of the loop raise on a value of
    the wrong type: no method, not subscriptable or iterable, no key. *)
Definition type_error (e : exn) : bool :=
  match e with
  | AttributeError | TypeError | KeyError => true
  | _ => false
  end.

(** An integer that [str] can write. *)
Definition is_year (v : json) : bool :=
  match v with
  | JInt n => (digits_of n <=? int_max_str_digits)%nat
  | _ => false
  end.

(** A title list whose first element, if any, is text. *)
Definition typed_title (v : json) : bool :=
  match v with
  | JNull | JArr [] | JArr (JStr _ :: _) => true
  | _ => false
  end.

(** Date parts whose first entry, if any, starts with an integer. *)
Definition typed_date_parts (v : json) : bool :=
  match v with
  | JNull | JArr [] | JArr (JArr [] :: _) => true
  | JArr (JArr (y :: _) :: _) => is_year y
  | _ => false
  end.

Definition typed_published (v : json) : bool :=
  match v with
  | JNull => true
  | JObj fields => absent_or typed_date_parts (lookup "date-parts" fields)
  | _ => false
  end.

(** A work whose fields, where present, have the types of the Crossref
    schema: titles are text, the DOI is text, dates are integers,
    authors are objects with textual names. *)
Definition typed_item (item : json) : bool :=
  match item with
  | JObj fields =>
      absent_or typed_title (lookup "title" fields)
      && absent_or is_str (lookup "DOI" fields)
      && absent_or typed_published (lookup "published-print" fields)
      && absent_or typed_published (lookup "published-online" fields)
      && absent_or authors_shape (lookup "author" fields)
  | _ => false
  end.

(** A name without given and family part, as an author entry that names
    an organisation has. *)
Definition nameless (author : json) : bool :=
  match author_full_name author with
  | Ok n => String.eqb n ""
  | Raise _ => false
  end.

(* ================================================================= *)
(** ** Characters and trimming *)

Fixpoint all_continuation (s : string) : bool :=
  match s with
  | EmptyString => true
  | String a rest => is_continuation a && all_continuation rest
  end.

(** One character: a byte and the continuation bytes after it. *)
Definition whole_char (c : string) : bool :=
  match c with
  | String _ rest => all_continuation rest
  | EmptyString => false
  end.

(** A character that does not start with a continuation byte. *)
Definition opens_char (c : string) : bool :=
  match c with
  | String a _ => negb (is_continuation a)
  | EmptyString => false
  end.

(** The characters that [strip] keeps. *)
Definition stripped (cs : list string) : list string :=
  rev (lstrip_chars (rev (lstrip_chars cs))).

(** A list of characters that neither starts nor ends with white
    space. *)
Definition trimmed (cs : list string) : Prop :=
  match cs with
  | c :: _ => is_space c = false
  | [] => True
  end
  /\ match rev cs with
     | c :: _ => is_space c = false
     | [] => True
     end.

(* ================================================================= *)
(** ** Sample data *)

Module Sample.

Definition old_record : record :=
  {| Title := JStr "Earlier work"; DOI := JStr "10.1000/old";
     Year := JInt 2019; Authors := "Ada Lovelace" |}.

Definition loaded_cache : cache :=
  {| _latest_results_df := Some [old_record]; _latest_query := Some "logic" |}.

Definition search (keyword rows : string) : request :=
  {| method := POST; form := [("keyword", keyword); ("rows", rows)] |}.

(** Crossref answers 200 with the given items. *)
Definition answers (items : list json) : world :=
  fun _ => Reply 200 (Json (JObj [("message", JObj [("items", JArr items)])])).

Definition work : json :=
  JObj [("title", JArr [JStr "Quantum walks"]);
        ("DOI", JStr "10.1000/qw");
        ("published-print",
          JObj [("date-parts", JArr [JArr [JInt 2021; JInt 3]])]);
        ("published-online",
          JObj [("date-parts", JArr [JArr [JInt 2020; JInt 11; JInt 2]])]);
        ("author",
          JArr [JObj [("given", JStr "Ada"); ("family", JStr "Lovelace")]])].

Definition work_record : record :=
  {| Title := JStr "Quantum walks"; DOI := JStr "10.1000/qw";
     Year := JInt 2021; Authors := "Ada Lovelace" |}.

Definition three_records : DataFrame :=
  [ work_record;
    {| Title := JStr ("Sets, maps and " ++ String dquote ("proofs" ++ String dquote ""));
     DOI := JStr "";
       Year := JStr em_dash; Authors := "Unknown" |};
    old_record ].

(** U+D800, a surrogate, as [json.loads] gives it for a lone escape. *)
Definition lone_surrogate : string :=
  String (Ascii.ascii_of_nat 237)
    (String (Ascii.ascii_of_nat 160) (String (Ascii.ascii_of_nat 128) "")).

Definition surrogate_record : record :=
  {| Title := JStr lone_surrogate; DOI := JStr "";
     Year := JStr em_dash; Authors := "Unknown" |}.

Definition null_doi_record : record :=
  {| Title := JStr "Untitled"; DOI := JNull;
     Year := JInt 2020; Authors := "Unknown" |}.


Definition carriage_return_record : record :=
  {| Title := JStr (String "a" (String CR "b")); DOI := JStr "";
     Year := JInt 2020; Authors := "Unknown" |}.

End Sample.

(* ================================================================= *)
(** * Properties *)

(** ** The error monad *)

Lemma bind_Ok {A B : Type} (m : result A) (k : A -> result B) (b : B) :
  bind m k = Ok b -> exists a, m = Ok a /\ k a = Ok b.
Proof.
  destruct m as [a | e]; simpl; intros H; [eauto | discriminate].
Qed.

Lemma for_each_Ok {A B : Type} (body : A -> result B) (xs : list A) :
  (forall x, In x xs -> exists y, body x = Ok y) ->
  exists ys, for_each body xs = Ok ys.
Proof.
  induction xs as [| x rest IH]; simpl; intros H.
  - eauto.
  - destruct (H x) as [y Hy]; [now left |].
    destruct IH as [ys Hys]; [intros; apply H; now right |].
    rewrite Hy, Hys. simpl. eauto.
Qed.

Lemma for_each_length {A B : Type} (body : A -> result B) (xs : list A) ys :
  for_each body xs = Ok ys -> length ys = length xs.
Proof.
  revert ys; induction xs as [| x rest IH]; simpl; intros ys H.
  - now inversion H.
  - apply bind_Ok in H as (y & _ & H).
    apply bind_Ok in H as (ys' & Hys & H).
    inversion H; subst; simpl. f_equal. now apply IH.
Qed.

(** Peels the binds of a computation that returned. *)
Ltac peel H :=
  repeat match type of H with
         | bind _ _ = Ok _ =>
             let a := fresh "v" in
             let E := fresh "E" in
             apply bind_Ok in H as (a & E & H)
         end.

(** ** Text *)

Lemma eqb_empty_false (s : string) : negb (String.eqb s "") = true -> s <> "".
Proof.
  intros H ->. discriminate.
Qed.

Lemma append_nonempty (s t : string) : s <> "" -> (s ++ t)%string <> "".
Proof.
  destruct s; [congruence | discriminate].
Qed.

Lemma join_nonempty (sep p : string) (rest : list string) :
  p <> "" -> join sep (p :: rest) <> "".
Proof.
  intros Hp. destruct rest; simpl; [assumption | now apply append_nonempty].
Qed.

(** ** The normaliser *)

Lemma normalize_item_dict (item : json) (r : record) :
  normalize_item item = Ok r -> exists fields, item = JObj fields.
Proof.
  destruct item; try discriminate. eauto.
Qed.

Lemma normalize_item_fields (item : json) (r : record) :
  normalize_item item = Ok r ->
  item_title item = Ok (Title r) /\ item_doi item = Ok (DOI r)
  /\ item_year item = Ok (Year r) /\ item_authors item = Ok (Authors r).
Proof.
  unfold normalize_item. intros H. peel H. inversion H; subst; simpl. auto.
Qed.

Lemma item_authors_nonempty (item : json) (a : string) :
  item_authors item = Ok a -> a <> "".
Proof.
  unfold item_authors. intros H. peel H. inversion H as [Ha]. clear H Ha.
  destruct (filter _ v1) as [| n names] eqn:F; [discriminate |].
  apply join_nonempty, eqb_empty_false.
  assert (In n (filter (fun n => negb (n =? "")%string) v1)) as Hin
    by (rewrite F; now left).
  now apply filter_In in Hin.
Qed.

Lemma author_full_name_Ok (author : json) :
  author_shape author = true -> exists n, author_full_name author = Ok n.
Proof.
  destruct author as [| | | | | | fields]; try discriminate. simpl.
  intros H. apply andb_true_iff in H as [Hg Hf].
  unfold author_full_name, dict_get.
  destruct (lookup "given" fields) as [[]|]; try discriminate;
    destruct (lookup "family" fields) as [[]|]; try discriminate;
    simpl; eauto.
Qed.

Lemma item_authors_Ok (fields : list (string * json)) :
  absent_or authors_shape (lookup "author" fields) = true ->
  exists a, item_authors (JObj fields) = Ok a.
Proof.
  unfold item_authors, dict_get. intros H.
  destruct (lookup "author" fields) as [v |]; simpl in *.
  - destruct v as [| | | | | authors |]; try discriminate. simpl in *.
    destruct (for_each_Ok author_full_name authors) as [ns Hns].
    + intros x Hx. apply author_full_name_Ok.
      rewrite forallb_forall in H. now apply H.
    + rewrite Hns. simpl. eauto.
  - eauto.
Qed.

Lemma item_title_Ok (fields : list (string * json)) :
  absent_or title_shape (lookup "title" fields) = true ->
  exists t, item_title (JObj fields) = Ok t.
Proof.
  unfold item_title, dict_get. intros H.
  destruct (lookup "title" fields) as [v |]; simpl in *.
  - destruct v as [| | | | | [| x l] |]; try discriminate; simpl; eauto.
  - eauto.
Qed.

Lemma published_year_Ok (published : json) :
  published_shape published = true -> published <> JNull ->
  exists y, published_year published = Ok y.
Proof.
  destruct published as [| | | | | | f]; try discriminate; [congruence |].
  unfold published_year. simpl. intros H _.
  destruct (lookup "date-parts" f) as [v |]; simpl in *.
  - destruct v as [| | | | | [| [| | | | | [| y ys] |] rest] |];
      try discriminate; simpl; eauto.
  - eauto.
Qed.

(** The field that line 35 selects. *)
Lemma item_published_cases (fields : list (string * json)) :
  (exists p, lookup "published-print" fields = Some p /\ truthy p = true
             /\ item_published (JObj fields) = Ok p)
  \/ ((lookup "published-print" fields = None
       \/ exists p, lookup "published-print" fields = Some p
                    /\ truthy p = false)
      /\ ((exists o, lookup "published-online" fields = Some o
                     /\ truthy o = true
                     /\ item_published (JObj fields) = Ok o)
          \/ ((lookup "published-online" fields = None
               \/ exists o, lookup "published-online" fields = Some o
                            /\ truthy o = false)
              /\ item_published (JObj fields) = Ok (JObj [])))).
Proof.
  unfold item_published, dict_get, py_or.
  destruct (lookup "published-print" fields) as [p |]; simpl.
  - destruct (truthy p) eqn:Tp; [left; eauto |].
    right. split; [right; eauto |].
    destruct (lookup "published-online" fields) as [o |]; simpl.
    + destruct (truthy o) eqn:To; [left; eauto | right; eauto].
    + right; eauto.
  - right. split; [now left |].
    destruct (lookup "published-online" fields) as [o |]; simpl.
    + destruct (truthy o) eqn:To; [left; eauto | right; eauto].
    + right; eauto.
Qed.

Lemma published_year_empty : published_year (JObj []) = Ok (JStr em_dash).
Proof. reflexivity. Qed.

Lemma item_year_Ok (fields : list (string * json)) :
  absent_or published_shape (lookup "published-print" fields) = true ->
  absent_or published_shape (lookup "published-online" fields) = true ->
  exists y, item_year (JObj fields) = Ok y.
Proof.
  intros Hp Ho. unfold item_year.
  destruct (item_published_cases fields)
    as [(p & Ep & Tp & ->) | (_ & [(o & Eo & To & ->) | (_ & ->)])]; simpl.
  - rewrite Ep in Hp. apply published_year_Ok; [exact Hp |].
    intros ->. discriminate.
  - rewrite Eo in Ho. apply published_year_Ok; [exact Ho |].
    intros ->. discriminate.
  - exists (JStr em_dash). reflexivity.
Qed.

Lemma published_year_source (published y : json) :
  published_year published = Ok y ->
  y = JStr em_dash
  \/ exists f date_parts entry,
       published = JObj f
       /\ lookup "date-parts" f = Some date_parts
       /\ getitem0 date_parts = Ok entry
       /\ getitem0 entry = Ok y.
Proof.
  unfold published_year. intros H. apply bind_Ok in H as (d & Hd & H).
  destruct published as [| | | | | | f]; try discriminate.
  simpl in Hd. unfold py_or in H.
  destruct (lookup "date-parts" f) as [v |] eqn:L.
  - inversion Hd; subst d; clear Hd.
    destruct (truthy v) eqn:Tv.
    + rewrite Tv in H. apply bind_Ok in H as (entry & He & H).
      destruct (truthy entry) eqn:Te.
      * apply bind_Ok in H as (entry' & He' & H).
        rewrite He in He'. inversion He'; subst entry'.
        right. exists f, v, entry. auto.
      * inversion H. now left.
    + simpl in H. inversion H. now left.
  - inversion Hd; subst d. simpl in H. inversion H. now left.
Qed.

Lemma item_year_published (fields : list (string * json)) (y : json) :
  item_year (JObj fields) = Ok y ->
  y = JStr em_dash
  \/ exists published f date_parts entry,
       (lookup "published-print" fields = Some published
        \/ lookup "published-online" fields = Some published)
       /\ published = JObj f
       /\ lookup "date-parts" f = Some date_parts
       /\ getitem0 date_parts = Ok entry
       /\ getitem0 entry = Ok y.
Proof.
  unfold item_year.
  destruct (item_published_cases fields)
    as [(p & Ep & Tp & ->) | (_ & [(o & Eo & To & ->) | (_ & ->)])];
    simpl; intros H.
  - destruct (published_year_source _ _ H) as [D | (f & dp & e & D)];
      [now left | right].
    exists p, f, dp, e. intuition.
  - destruct (published_year_source _ _ H) as [D | (f & dp & e & D)];
      [now left | right].
    exists o, f, dp, e. intuition.
  - left. now inversion H.
Qed.

(** C5, amended: the normaliser never raises on an item of the shape
    Crossref documents (an object whose title is null or a list, whose
    publication dates are null or objects with date parts null or a list
    of lists, whose authors are a list of objects with textual name
    parts), whichever of these fields are missing or empty. *)
Theorem normalize_item_total_on_well_shaped (item : json) :
  well_shaped item = true -> exists r, normalize_item item = Ok r.
Proof.
  destruct item as [| | | | | | fields]; try discriminate. simpl.
  intros H.
  apply andb_true_iff in H as [H Ha].
  apply andb_true_iff in H as [H Ho].
  apply andb_true_iff in H as [Ht Hp].
  destruct (item_title_Ok fields Ht) as [t Et].
  destruct (item_year_Ok fields Hp Ho) as [y Ey].
  destruct (item_authors_Ok fields Ha) as [a Ea].
  assert (exists d, item_doi (JObj fields) = Ok d) as [d Ed].
  { unfold item_doi, dict_get. destruct (lookup "DOI" fields); eauto. }
  unfold normalize_item. rewrite Et, Ed, Ey, Ea. simpl. eauto.
Qed.

Lemma normalize_item_total_witness :
  well_shaped
    (JObj [("title", JArr []);
           ("published-online", JObj [("date-parts", JArr [])]);
           ("author", JArr [JObj [("family", JStr "Turing")]])]) = true
  /\ exists r,
       normalize_item
         (JObj [("title", JArr []);
                ("published-online", JObj [("date-parts", JArr [])]);
                ("author", JArr [JObj [("family", JStr "Turing")]])]) = Ok r.
Proof.
  split; [reflexivity |].
  apply normalize_item_total_on_well_shaped. reflexivity.
Defined.

(** C5 as stated fails: a null author list, a numeric title and an item
    that is not an object all make the loop raise. *)
Lemma normalize_item_raises :
  normalize_item (JObj [("author", JNull)]) = Raise TypeError
  /\ normalize_item (JObj [("title", JInt 5)]) = Raise TypeError
  /\ normalize_item (JObj [("author", JArr [JObj [("given", JNull)]])])
     = Raise AttributeError
  /\ normalize_item (JStr "10.1000/qw") = Raise AttributeError.
Proof.
  repeat split; reflexivity.
Qed.



Lemma no_date_parts_dash (v : json) :
  no_date_parts (Some v) = true -> truthy v = true ->
  published_year v = Ok (JStr em_dash).
Proof.
  destruct v as [| | | | | | f]; try discriminate.
  unfold no_date_parts, published_year, dict_get. intros H _.
  destruct (lookup "date-parts" f) as [d |]; [| reflexivity].
  destruct d as [| | | | | [| [| | | | | [| y ys] |] rest] |];
    try discriminate; reflexivity.
Qed.

Lemma for_each_nameless (authors : list json) :
  forallb nameless authors = true ->
  exists names,
    for_each author_full_name authors = Ok names
    /\ filter (fun n => negb (String.eqb n "")) names = [].
Proof.
  induction authors as [| a authors IH]; cbn [forallb for_each]; intros H.
  - exists []. split; reflexivity.
  - apply andb_true_iff in H as [Ha Hr]. unfold nameless in Ha.
    destruct (author_full_name a) as [n |]; [| discriminate].
    destruct (IH Hr) as (names & E & F).
    exists (n :: names). rewrite E. cbn [bind filter]. rewrite Ha.
    split; [reflexivity | exact F].
Qed.

Lemma item_authors_unknown (fields : list (string * json))
      (authors : list json) :
  lookup "author" fields = Some (JArr authors) ->
  forallb nameless authors = true ->
  item_authors (JObj fields) = Ok "Unknown".
Proof.
  intros L H. unfold item_authors, dict_get. rewrite L. cbn [bind py_iter].
  destruct (for_each_nameless authors H) as (names & -> & F).
  cbn [bind]. now rewrite F.
Qed.

Lemma item_title_untitled (fields : list (string * json)) :
  lookup "title" fields = None
  \/ (exists v, lookup "title" fields = Some v /\ truthy v = false) ->
  item_title (JObj fields) = Ok (JStr "Untitled").
Proof.
  unfold item_title, dict_get, py_or.
  intros [-> | (v & -> & T)]; cbn [bind]; [reflexivity |].
  now rewrite T.
Qed.

Lemma item_title_null (fields : list (string * json)) :
  item_title (JObj fields) = Ok JNull ->
  exists rest, lookup "title" fields = Some (JArr (JNull :: rest)).
Proof.
  unfold item_title, dict_get, py_or.
  destruct (lookup "title" fields) as [v |]; cbn [bind]; [| discriminate].
  destruct (truthy v) eqn:T; [rewrite T | discriminate].
  destruct v as [| | | | s | [| x l] |]; try discriminate.
  - simpl. destruct (str_chars s); discriminate.
  - simpl. intros H. inversion H. eauto.
Qed.

Lemma getitem0_list (v x : json) (l : list json) :
  getitem0 v = Ok (JArr (x :: l)) -> exists rest, v = JArr (JArr (x :: l) :: rest).
Proof.
  destruct v as [| | | | s | [| e rest] |]; try discriminate; simpl.
  - destruct (str_chars s); discriminate.
  - intros H. inversion H. eauto.
Qed.

Lemma getitem0_null (v : json) :
  getitem0 v = Ok JNull -> exists rest, v = JArr (JNull :: rest).
Proof.
  destruct v as [| | | | s | [| e rest] |]; try discriminate; simpl.
  - destruct (str_chars s); discriminate.
  - intros H. inversion H. eauto.
Qed.

Lemma published_year_null (published : json) :
  published_year published = Ok JNull ->
  exists f ys rest,
    published = JObj f
    /\ lookup "date-parts" f = Some (JArr (JArr (JNull :: ys) :: rest)).
Proof.
  intros H.
  destruct (published_year_source _ _ H)
    as [D | (f & date_parts & entry & -> & L & G & G')]; [discriminate |].
  destruct (getitem0_null _ G') as [ys ->].
  destruct (getitem0_list _ _ _ G) as [rest ->].
  exists f, ys, rest. auto.
Qed.

Lemma item_year_null (fields : list (string * json)) :
  item_year (JObj fields) = Ok JNull ->
  exists f ys rest,
    (lookup "published-print" fields = Some (JObj f)
     \/ lookup "published-online" fields = Some (JObj f))
    /\ lookup "date-parts" f = Some (JArr (JArr (JNull :: ys) :: rest)).
Proof.
  unfold item_year.
  destruct (item_published_cases fields)
    as [(p & Ep & Tp & ->) | (_ & [(o & Eo & To & ->) | (_ & ->)])];
    cbn [bind]; intros H.
  - destruct (published_year_null _ H) as (f & ys & rest & -> & L).
    exists f, ys, rest. auto.
  - destruct (published_year_null _ H) as (f & ys & rest & -> & L).
    exists f, ys, rest. auto.
  - discriminate.
Qed.

Lemma item_year_dash (fields : list (string * json)) :
  no_date_parts (lookup "published-print" fields) = true ->
  no_date_parts (lookup "published-online" fields) = true ->
  item_year (JObj fields) = Ok (JStr em_dash).
Proof.
  intros Hp Ho. unfold item_year.
  destruct (item_published_cases fields)
    as [(p & Ep & Tp & ->) | (_ & [(o & Eo & To & ->) | (_ & ->)])];
    cbn [bind].
  - rewrite Ep in Hp. now apply no_date_parts_dash.
  - rewrite Eo in Ho. now apply no_date_parts_dash.
  - reflexivity.
Qed.

Lemma item_year_print (fields : list (string * json)) (p : json) :
  lookup "published-print" fields = Some p -> truthy p = true ->
  item_year (JObj fields) = published_year p.
Proof.
  intros L T. unfold item_year, item_published, dict_get.
  rewrite L. cbn [bind]. now rewrite T.
Qed.


(** C4, amended: a record produced by the normaliser has its four
    fields.  Authors is never empty, and is Unknown when the author
    list is missing, empty or holds no name.  A title that is missing,
    null or empty gives Untitled; a missing DOI gives the empty string
    and a DOI that is present is passed on as it is; publication dates
    that carry no date parts give the dash.  Title, DOI and Year are
    null only where the item itself holds a JSON null: as first title,
    as DOI, as first component of the first date-parts entry. *)
Theorem normalize_item_fields_populated (item : json) (r : record) :
  normalize_item item = Ok r ->
  exists fields,
    item = JObj fields
    /\ Authors r <> ""
    /\ (lookup "author" fields = None -> Authors r = "Unknown")
    /\ (forall authors,
           lookup "author" fields = Some (JArr authors) ->
           forallb nameless authors = true -> Authors r = "Unknown")
    /\ (lookup "title" fields = None -> Title r = JStr "Untitled")
    /\ (forall v,
           lookup "title" fields = Some v -> truthy v = false ->
           Title r = JStr "Untitled")
    /\ (Title r = JNull ->
        exists rest, lookup "title" fields = Some (JArr (JNull :: rest)))
    /\ (lookup "DOI" fields = None -> DOI r = JStr "")
    /\ (forall v, lookup "DOI" fields = Some v -> DOI r = v)
    /\ (no_date_parts (lookup "published-print" fields) = true ->
        no_date_parts (lookup "published-online" fields) = true ->
        Year r = JStr em_dash)
    /\ (forall p,
           lookup "published-print" fields = Some p -> truthy p = true ->
           no_date_parts (Some p) = true -> Year r = JStr em_dash)
    /\ (Year r = JNull ->
        exists f ys rest,
          (lookup "published-print" fields = Some (JObj f)
           \/ lookup "published-online" fields = Some (JObj f))
          /\ lookup "date-parts" f
             = Some (JArr (JArr (JNull :: ys) :: rest))).
Proof.
  intros H.
  destruct (normalize_item_dict _ _ H) as [fields ->].
  destruct (normalize_item_fields _ _ H) as (Ht & Hd & Hy & Ha).
  exists fields. split; [reflexivity |].
  split; [now apply item_authors_nonempty with (item := JObj fields) |].
  assert (forall (A : Type) (m : result A) (x y : A),
             m = Ok x -> m = Ok y -> x = y) as same
    by (intros A m x y E E'; rewrite E in E'; now inversion E').
  split; [| split; [| split; [| split; [| split; [| split; [| split;
    [| split; [| split]]]]]]]].
  - intros E. unfold item_authors, dict_get in Ha. rewrite E in Ha.
    simpl in Ha. now inversion Ha.
  - intros authors L N. refine (same _ _ _ _ Ha _).
    now apply item_authors_unknown with (authors := authors).
  - intros E. refine (same _ _ _ _ Ht _). apply item_title_untitled. now left.
  - intros v L T. refine (same _ _ _ _ Ht _). apply item_title_untitled.
    right. eauto.
  - intros E. rewrite E in Ht. now apply item_title_null.
  - intros E. unfold item_doi, dict_get in Hd. rewrite E in Hd.
    now inversion Hd.
  - intros v E. unfold item_doi, dict_get in Hd. rewrite E in Hd.
    now inversion Hd.
  - intros Hp Ho. refine (same _ _ _ _ Hy _). now apply item_year_dash.
  - intros p L T N. refine (same _ _ _ _ Hy _).
    rewrite (item_year_print fields p L T). now apply no_date_parts_dash.
  - intros E. rewrite E in Hy. now apply item_year_null.
Qed.

Lemma normalize_item_fields_populated_witness :
  normalize_item Sample.work = Ok Sample.work_record
  /\ (exists fields,
        Sample.work = JObj fields /\ Authors Sample.work_record <> "")
  /\ exists fields,
       JObj [("title", JNull); ("author", JArr [JObj [("name", JStr "ACM")]])]
       = JObj fields
       /\ (lookup "DOI" fields = None -> JStr "" = JStr "").
Proof.
  split; [reflexivity |]. split.
  - destruct (normalize_item_fields_populated Sample.work Sample.work_record
                eq_refl) as (fields & E & Ha & _).
    exists fields. split; assumption.
  - destruct (normalize_item_fields_populated
                (JObj [("title", JNull);
                       ("author", JArr [JObj [("name", JStr "ACM")]])])
                {| Title := JStr "Untitled"; DOI := JStr "";
                   Year := JStr em_dash; Authors := "Unknown" |}
                eq_refl)
      as (fields & E & _ & _ & _ & _ & _ & _ & D & _).
    exists fields. split; assumption.
Defined.

(** C4 as stated fails: an item whose DOI, first title or first date
    component is a JSON null is accepted and the null is passed on. *)
Lemma normalize_item_passes_null :
  normalize_item (JObj [("DOI", JNull)])
  = Ok {| Title := JStr "Untitled"; DOI := JNull;
          Year := JStr em_dash; Authors := "Unknown" |}
  /\ normalize_item
       (JObj [("title", JArr [JNull]);
              ("published-print", JObj [("date-parts", JArr [JArr [JNull]])])])
     = Ok {| Title := JNull; DOI := JStr "";
             Year := JNull; Authors := "Unknown" |}.
Proof.
  split; reflexivity.
Qed.




(** ** The views *)

Lemma parse_rows_range (rows_raw : string) :
  1 <= parse_rows rows_raw <= 100.
Proof.
  unfold parse_rows. destruct (py_int rows_raw); lia.
Qed.

Lemma form_rows_parse (req : request) :
  form_rows req
  = match lookup "rows" (form req) with
    | Some rows_raw => parse_rows rows_raw
    | None => 10
    end.
Proof.
  unfold form_rows, or_str.
  destruct (lookup "rows" (form req)) as [raw |]; [| reflexivity].
  destruct (String.eqb_spec raw ""); [subst; reflexivity | reflexivity].
Qed.

Lemma index_no_keyword (get : world) (req : request) (g : cache) :
  method req = POST -> form_keyword req = "" ->
  index get req g
  = {| globals := g;
       flashed := ["Please enter a research topic keyword."];
       upstream_calls := [];
       result_of := Returns (redirect url_for_index) |}.
Proof.
  intros M K. unfold index. rewrite M, K. reflexivity.
Qed.

(** The POST branch of [index] once the keyword is known to be there. *)
Lemma index_search (get : world) (req : request) (g : cache) :
  method req = POST -> form_keyword req <> "" ->
  index get req g
  = let keyword := form_keyword req in
    let rows := form_rows req in
    let calls := [crossref_request keyword rows] in
    match fetch_crossref_results get keyword rows with
    | Raise (HTTPError status_code) =>
        {| globals := g;
           flashed := ["Crossref API error: " ++ str_of_int status_code];
           upstream_calls := calls;
           result_of := Returns (redirect url_for_index) |}
    | Raise e =>
        if is_RequestException e then
          {| globals := g;
             flashed :=
               ["Unable to reach Crossref API. Please try again later."];
             upstream_calls := calls;
             result_of := Returns (redirect url_for_index) |}
        else
          {| globals := g; flashed := []; upstream_calls := calls;
             result_of := Propagates e |}
    | Ok results_df =>
        if empty results_df then
          {| globals := g;
             flashed := ["No results found for that query after 2015."];
             upstream_calls := calls;
             result_of :=
               Returns (render_index g (Some results_df) keyword rows) |}
        else
          let g' := {| _latest_results_df := Some results_df;
                       _latest_query := Some keyword |} in
          {| globals := g'; flashed := []; upstream_calls := calls;
             result_of :=
               Returns (render_index g' (Some results_df) keyword rows) |}
    end.
Proof.
  intros M K. unfold index. rewrite M.
  destruct (String.eqb_spec (form_keyword req) ""); [contradiction |].
  reflexivity.
Qed.

Lemma render_index_new (g : cache) (df : DataFrame) (keyword : string)
      (rows : Z) :
  keyword <> "" ->
  render_index g (Some df) keyword rows
  = render_template "index.html" (Some df) keyword rows.
Proof.
  intros K. unfold render_index, or_str.
  destruct (String.eqb_spec keyword ""); [contradiction | reflexivity].
Qed.

(** C1, amended: a search that succeeds with no record flashes the
    no-results message, leaves the cache as it was, and renders the page
    with the new, empty result set: the cached set stays in the cache
    but is not what the page is given. *)
Theorem index_empty_search (get : world) (req : request) (g : cache)
        (df : DataFrame) :
  method req = POST ->
  form_keyword req <> "" ->
  fetch_crossref_results get (form_keyword req) (form_rows req) = Ok df ->
  empty df = true ->
  index get req g
  = {| globals := g;
       flashed := ["No results found for that query after 2015."];
       upstream_calls := [crossref_request (form_keyword req) (form_rows req)];
       result_of :=
         Returns (render_template "index.html" (Some [])
                                  (form_keyword req) (form_rows req)) |}.
Proof.
  intros M K F E. rewrite (index_search get req g M K). cbv zeta.
  rewrite F, E. destruct df; [| discriminate].
  now rewrite render_index_new.
Qed.

Lemma index_empty_search_witness :
  index (Sample.answers []) (Sample.search "quantum computing" "10")
        Sample.loaded_cache
  = {| globals := Sample.loaded_cache;
       flashed := ["No results found for that query after 2015."];
       upstream_calls := [crossref_request "quantum computing" 10];
       result_of :=
         Returns (render_template "index.html" (Some [])
                                  "quantum computing" 10) |}.
Proof.
  apply (index_empty_search (Sample.answers [])
           (Sample.search "quantum computing" "10") Sample.loaded_cache []).
  - reflexivity.
  - discriminate.
  - reflexivity.
  - reflexivity.
Defined.

(** C1 as stated fails: with a result set loaded in the cache, the page
    rendered after an empty search is given the empty set, not the
    cached one. *)
Lemma index_empty_search_hides_cache :
  _latest_results_df Sample.loaded_cache = Some [Sample.old_record]
  /\ fetch_crossref_results (Sample.answers []) "quantum computing" 10 = Ok []
  /\ result_of (index (Sample.answers [])
                      (Sample.search "quantum computing" "10")
                      Sample.loaded_cache)
     = Returns (render_template "index.html" (Some [])
                                "quantum computing" 10)
  /\ result_of (index (Sample.answers [])
                      (Sample.search "quantum computing" "10")
                      Sample.loaded_cache)
     <> Returns (render_template "index.html"
                   (_latest_results_df Sample.loaded_cache)
                   "quantum computing" 10).
Proof.
  repeat split; try reflexivity. discriminate.
Qed.

Lemma download_csv_globals (linesep : string) (g : cache) :
  globals (download_csv linesep g) = g.
Proof.
  unfold download_csv.
  destruct (_latest_results_df g) as [df |]; [| reflexivity].
  destruct (empty df); reflexivity.
Qed.

Lemma index_globals (get : world) (req : request) (g : cache) :
  globals (index get req g) = g
  \/ exists df,
       method req = POST
       /\ form_keyword req <> ""
       /\ fetch_crossref_results get (form_keyword req) (form_rows req) = Ok df
       /\ df <> []
       /\ globals (index get req g)
          = {| _latest_results_df := Some df;
               _latest_query := Some (form_keyword req) |}.
Proof.
  destruct (method req) eqn:M; try (left; unfold index; rewrite M; reflexivity).
  destruct (String.eqb_spec (form_keyword req) "") as [K | K].
  - left. now rewrite index_no_keyword.
  - rewrite (index_search get req g M K). cbv zeta.
    destruct (fetch_crossref_results get (form_keyword req) (form_rows req))
      as [df | e] eqn:F.
    + destruct df as [| r df'].
      * now left.
      * right. exists (r :: df'). repeat split; auto; discriminate.
    + left. destruct e; reflexivity.
Qed.

Lemma serve_globals (linesep : string) (get : world) (r : route)
      (g : cache) :
  globals (serve linesep get r g) = g
  \/ exists req df,
       r = Index req
       /\ method req = POST
       /\ form_keyword req <> ""
       /\ fetch_crossref_results get (form_keyword req) (form_rows req) = Ok df
       /\ df <> []
       /\ globals (serve linesep get r g)
          = {| _latest_results_df := Some df;
               _latest_query := Some (form_keyword req) |}.
Proof.
  destruct r as [req |]; simpl.
  - destruct (index_globals get req g) as [H | (df & M & K & F & N & H)].
    + now left.
    + right. exists req, df. repeat split; assumption.
  - left. apply download_csv_globals.
Qed.

(** C2: the cache starts empty, and a request leaves it as it was unless
    it is a search whose result set is not empty, which stores that set
    and its keyword. *)
Theorem cache_written_only_by_nonempty_search :
  initial_cache = {| _latest_results_df := None; _latest_query := None |}
  /\ forall (linesep : string) (get : world) (r : route) (g : cache),
       globals (serve linesep get r g) = g
       \/ exists req df,
            r = Index req
            /\ method req = POST
            /\ form_keyword req <> ""
            /\ fetch_crossref_results get (form_keyword req) (form_rows req)
               = Ok df
            /\ df <> []
            /\ globals (serve linesep get r g)
               = {| _latest_results_df := Some df;
                    _latest_query := Some (form_keyword req) |}.
Proof.
  split; [reflexivity | exact serve_globals].
Qed.

(** What the cache holds is never an empty result set. *)
Lemma run_cache_invariant (linesep : string)
      (history : list (world * route)) (g : cache) :
  (_latest_results_df g = None /\ _latest_query g = None
   \/ exists df keyword,
        df <> [] /\ keyword <> ""
        /\ g = {| _latest_results_df := Some df;
                  _latest_query := Some keyword |}) ->
  _latest_results_df (run linesep g history) = None
  /\ _latest_query (run linesep g history) = None
  \/ exists df keyword,
       df <> [] /\ keyword <> ""
       /\ run linesep g history = {| _latest_results_df := Some df;
                             _latest_query := Some keyword |}.
Proof.
  revert g. induction history as [| [get r] rest IH]; simpl; intros g H.
  - exact H.
  - apply IH.
    destruct (serve_globals linesep get r g)
      as [E | (req & df & _ & _ & K & _ & N & E)]; rewrite E.
    + exact H.
    + right. exists df, (form_keyword req). auto.
Qed.

(** When the client raises: an HTTPError for a status from 400 to 599,
    a ConnectionError when no reply comes. *)
Lemma fetch_crossref_results_raises (get : world) (keyword : string) (rows : Z) :
  (forall status_code content,
      get (crossref_request keyword rows) = Reply status_code content ->
      400 <= status_code < 600 ->
      fetch_crossref_results get keyword rows = Raise (HTTPError status_code))
  /\ (get (crossref_request keyword rows) = NoReply ->
      fetch_crossref_results get keyword rows = Raise ConnectionError).
Proof.
  unfold fetch_crossref_results. split.
  - intros status_code content -> [Hlo Hhi]. unfold raise_for_status.
    apply Z.leb_le in Hlo. apply Z.ltb_lt in Hhi. now rewrite Hlo, Hhi.
  - now intros ->.
Qed.

Lemma raise_for_status_cases (status_code : Z) :
  (400 <= status_code < 600
   /\ raise_for_status status_code = Raise (HTTPError status_code))
  \/ (~ 400 <= status_code < 600 /\ raise_for_status status_code = Ok tt).
Proof.
  unfold raise_for_status.
  destruct (Z.leb_spec 400 status_code), (Z.ltb_spec status_code 600);
    simpl; [left | right | right | right]; split; try reflexivity; lia.
Qed.

(** A status outside 400..599 is handled as 200 is. *)
Lemma fetch_crossref_results_other_status (get : world) (keyword : string)
      (rows : Z) (status_code : Z) (content : body) :
  get (crossref_request keyword rows) = Reply status_code content ->
  ~ 400 <= status_code < 600 ->
  fetch_crossref_results get keyword rows
  = fetch_crossref_results (fun _ => Reply 200 content) keyword rows.
Proof.
  intros G S. unfold fetch_crossref_results. rewrite G.
  destruct (raise_for_status_cases status_code) as [[S' _] | [_ ->]];
    [contradiction | reflexivity].
Qed.

(** C3, amended: on each failure of a search (no keyword after
    trimming, a reply of Crossref with a status from 400 to 599, no
    reply) the view flashes one message and redirects to the form with
    the cache as it was; without a keyword the client is not called,
    and the message for a status from 400 to 599 ends with that status.
    A reply with any other status, in 200..299 or not, is no failure:
    the view does with it what it does with a 200. *)
Theorem index_failures (get : world) (req : request) (g : cache) :
  method req = POST ->
  (form_keyword req = "" ->
   index get req g
   = {| globals := g;
        flashed := ["Please enter a research topic keyword."];
        upstream_calls := [];
        result_of := Returns (redirect url_for_index) |})
  /\ (forall status_code content,
         form_keyword req <> "" ->
         get (crossref_request (form_keyword req) (form_rows req))
         = Reply status_code content ->
         400 <= status_code < 600 ->
         index get req g
         = {| globals := g;
              flashed := ["Crossref API error: " ++ str_of_int status_code];
              upstream_calls :=
                [crossref_request (form_keyword req) (form_rows req)];
              result_of := Returns (redirect url_for_index) |})
  /\ (form_keyword req <> "" ->
      get (crossref_request (form_keyword req) (form_rows req)) = NoReply ->
      index get req g
      = {| globals := g;
           flashed := ["Unable to reach Crossref API. Please try again later."];
           upstream_calls :=
             [crossref_request (form_keyword req) (form_rows req)];
           result_of := Returns (redirect url_for_index) |})
  /\ (forall status_code content,
         form_keyword req <> "" ->
         get (crossref_request (form_keyword req) (form_rows req))
         = Reply status_code content ->
         ~ 400 <= status_code < 600 ->
         index get req g = index (fun _ => Reply 200 content) req g).
Proof.
  intros M. split; [| split; [| split]].
  - intros K. now apply index_no_keyword.
  - intros status_code content K G S.
    rewrite (index_search get req g M K). cbv zeta.
    now rewrite (proj1 (fetch_crossref_results_raises get _ _) _ _ G S).
  - intros K G. rewrite (index_search get req g M K). cbv zeta.
    now rewrite (proj2 (fetch_crossref_results_raises get _ _) G).
  - intros status_code content K G S.
    rewrite (index_search get req g M K), (index_search _ req g M K).
    cbv zeta.
    now rewrite (fetch_crossref_results_other_status get _ _ _ _ G S).
Qed.

Lemma index_failures_witness :
  index (fun _ => Reply 429 NotJson) (Sample.search "quantum computing" "10")
        Sample.loaded_cache
  = {| globals := Sample.loaded_cache;
       flashed := ["Crossref API error: 429"];
       upstream_calls := [crossref_request "quantum computing" 10];
       result_of := Returns (redirect "/") |}
  /\ index (fun _ => NoReply) (Sample.search "quantum computing" "10")
           Sample.loaded_cache
     = {| globals := Sample.loaded_cache;
          flashed := ["Unable to reach Crossref API. Please try again later."];
          upstream_calls := [crossref_request "quantum computing" 10];
          result_of := Returns (redirect "/") |}
  /\ index (fun _ => NoReply) (Sample.search "   " "10") Sample.loaded_cache
     = {| globals := Sample.loaded_cache;
          flashed := ["Please enter a research topic keyword."];
          upstream_calls := [];
          result_of := Returns (redirect "/") |}
  /\ index (fun _ => Reply 203 NotJson) (Sample.search "quantum computing" "10")
           Sample.loaded_cache
     = index (fun _ => Reply 200 NotJson) (Sample.search "quantum computing" "10")
             Sample.loaded_cache.
Proof.
  split; [| split; [| split]].
  - apply (proj1 (proj2 (index_failures (fun _ => Reply 429 NotJson)
                           (Sample.search "quantum computing" "10")
                           Sample.loaded_cache eq_refl)) 429 NotJson).
    + discriminate.
    + reflexivity.
    + lia.
  - apply (proj1 (proj2 (proj2 (index_failures (fun _ => NoReply)
                                  (Sample.search "quantum computing" "10")
                                  Sample.loaded_cache eq_refl)))).
    + discriminate.
    + reflexivity.
  - apply (proj1 (index_failures (fun _ => NoReply)
                    (Sample.search "   " "10") Sample.loaded_cache eq_refl)).
    reflexivity.
  - apply (proj2 (proj2 (proj2 (index_failures (fun _ => Reply 203 NotJson)
                                  (Sample.search "quantum computing" "10")
                                  Sample.loaded_cache eq_refl)))
                 203 NotJson).
    + discriminate.
    + reflexivity.
    + lia.
Defined.

(** C3 as stated fails: a status that is not in 200..299 and not in
    400..599 is no failure for the view.  With the status 300 and a
    JSON body the records are stored and rendered, nothing is flashed
    and nothing redirects; with the status 304 and no JSON body the
    message does not hold the status. *)
Lemma index_redirection_status_is_no_failure :
  index (fun _ => Reply 300
                    (Json (JObj [("message",
                                  JObj [("items", JArr [Sample.work])])])))
        (Sample.search "quantum computing" "10") Sample.loaded_cache
  = {| globals := {| _latest_results_df := Some [Sample.work_record];
                     _latest_query := Some "quantum computing" |};
       flashed := [];
       upstream_calls := [crossref_request "quantum computing" 10];
       result_of :=
         Returns (render_template "index.html" (Some [Sample.work_record])
                                  "quantum computing" 10) |}
  /\ index (fun _ => Reply 304 NotJson)
           (Sample.search "quantum computing" "10") Sample.loaded_cache
     = {| globals := Sample.loaded_cache;
          flashed := ["Unable to reach Crossref API. Please try again later."];
          upstream_calls := [crossref_request "quantum computing" 10];
          result_of := Returns (redirect "/") |}.
Proof.
  split; reflexivity.
Qed.

(** C7: the rows value sent to Crossref is the integer parsed from the
    rows input, clamped to 1..100, and 10 when the input is not an
    integer. *)
Theorem rows_clamped_or_default (get : world) (req : request) (g : cache)
        (rows_raw : string) :
  method req = POST ->
  form_keyword req <> "" ->
  lookup "rows" (form req) = Some rows_raw ->
  map param_rows (upstream_calls (index get req g)) = [parse_rows rows_raw]
  /\ 1 <= parse_rows rows_raw <= 100
  /\ match py_int rows_raw with
     | Some n =>
         (n < 1 -> parse_rows rows_raw = 1)
         /\ (1 <= n <= 100 -> parse_rows rows_raw = n)
         /\ (100 < n -> parse_rows rows_raw = 100)
     | None => parse_rows rows_raw = 10
     end.
Proof.
  intros M K R. split; [| split].
  - rewrite (index_search get req g M K). cbv zeta.
    rewrite form_rows_parse, R.
    destruct (fetch_crossref_results _ _ _) as [df | e].
    + destruct (empty df); reflexivity.
    + destruct e; reflexivity.
  - apply parse_rows_range.
  - unfold parse_rows. destruct (py_int rows_raw); [| reflexivity].
    repeat split; lia.
Qed.

Lemma rows_clamped_or_default_witness :
  map param_rows
      (upstream_calls (index (Sample.answers [])
                             (Sample.search "quantum computing" "500")
                             Sample.loaded_cache))
  = [100]
  /\ parse_rows "0" = 1 /\ parse_rows "abc" = 10 /\ parse_rows "42" = 42.
Proof.
  split.
  - apply (rows_clamped_or_default (Sample.answers [])
             (Sample.search "quantum computing" "500") Sample.loaded_cache
             "500"); [reflexivity | discriminate | reflexivity].
  - repeat split; reflexivity.
Defined.

(** C10: a download request leaves the cached result set and the cached
    keyword exactly as they were. *)
Theorem download_csv_keeps_cache (linesep : string) (g : cache) :
  _latest_results_df (globals (download_csv linesep g)) = _latest_results_df g
  /\ _latest_query (globals (download_csv linesep g)) = _latest_query g.
Proof.
  now rewrite download_csv_globals.
Qed.

(** ** Writing and reading CSV *)

Lemma append_assoc (s t u : string) :
  ((s ++ t) ++ u)%string = (s ++ t ++ u)%string.
Proof.
  induction s as [| a s IH]; simpl; [reflexivity | now rewrite IH].
Qed.

Lemma append_empty_r (s : string) : (s ++ "")%string = s.
Proof.
  induction s as [| a s IH]; simpl; [reflexivity | now rewrite IH].
Qed.

Lemma occurs_eq (a b : ascii) (s : string) :
  occurs a s = false -> occurs b s = true -> Ascii.eqb a b = false.
Proof.
  intros Ha Hb. destruct (Ascii.eqb_spec a b) as [-> | N]; [| reflexivity].
  congruence.
Qed.

Section Reader.

(** The reader's setting and the writer's line terminator. *)
Variable universal : bool.
Variable lineterminator : string.

(** The terminator is the one of a platform, and a reader of rows that
    end with a carriage return breaks records there. *)
Hypothesis lineterminator_known : platform_linesep lineterminator.
Hypothesis universal_if_CR :
  occurs CR lineterminator = true -> universal = true.

Lemma is_special_false (a : ascii) :
  is_special lineterminator a = false ->
  Ascii.eqb a comma = false /\ Ascii.eqb a dquote = false
  /\ Ascii.eqb a LF = false.
Proof.
  unfold is_special. intros H.
  apply orb_false_iff in H as [H Hl]. apply orb_false_iff in H as [Hc Hq].
  repeat split; try assumption.
  apply (occurs_eq a LF lineterminator Hl).
  destruct lineterminator_known as [E | E]; rewrite E; reflexivity.
Qed.

Lemma has_special_free (c : ascii) (s : string) :
  has_special lineterminator s = false ->
  occurs c lineterminator = true -> occurs c s = false.
Proof.
  intros Hs Hc. induction s as [| a s IH]; [reflexivity |].
  cbn [has_special] in Hs. apply orb_false_iff in Hs as [Ha Hs].
  cbn [occurs]. rewrite (IH Hs), orb_false_r.
  unfold is_special in Ha. apply orb_false_iff in Ha as [_ Ha].
  rewrite Ascii.eqb_sym. exact (occurs_eq a c lineterminator Ha Hc).
Qed.

(** A character of a field written without quotes does not end a
    record. *)
Lemma plain_char (a : ascii) (s : string) :
  reads_back universal lineterminator (String a s) ->
  has_special lineterminator (String a s) = false ->
  Ascii.eqb a comma = false /\ Ascii.eqb a dquote = false
  /\ Ascii.eqb a LF || (universal && Ascii.eqb a CR) = false
  /\ has_special lineterminator s = false
  /\ reads_back universal lineterminator s.
Proof.
  intros Hr Hs. pose proof Hs as Hs'. cbn [has_special] in Hs'.
  apply orb_false_iff in Hs' as [Ha Hs'].
  apply is_special_false in Ha as (Hc & Hq & Hl).
  repeat split; try assumption.
  - rewrite Hl. destruct universal eqn:U; [| reflexivity].
    specialize (Hr eq_refl Hs). cbn [occurs] in Hr.
    apply orb_false_iff in Hr as [Hr _]. now rewrite Ascii.eqb_sym.
  - intros U _. specialize (Hr U Hs). cbn [occurs] in Hr.
    now apply orb_false_iff in Hr as [_ Hr].
Qed.

Lemma read_unquoted (s field : string) (fields : list string)
      (rest : string) :
  has_special lineterminator s = false ->
  reads_back universal lineterminator s ->
  csv_read_from universal InField field fields (s ++ rest)
  = csv_read_from universal InField (field ++ s) fields rest.
Proof.
  revert field. induction s as [| a s IH]; intros field Hs Hr.
  - simpl. now rewrite append_empty_r.
  - destruct (plain_char a s Hr Hs) as (Hc & _ & He & Hs' & Hr').
    cbn [append csv_read_from]. rewrite He, Hc.
    rewrite IH by assumption. now rewrite append_assoc.
Qed.

Lemma read_quoted (s field : string) (fields : list string) (rest : string) :
  csv_read_from universal InQuotedField field fields
                (double_quotes s ++ String dquote rest)
  = csv_read_from universal QuoteInQuotedField (field ++ s) fields rest.
Proof.
  revert field. induction s as [| a s IH]; intros field.
  - simpl. now rewrite append_empty_r.
  - simpl. destruct (Ascii.eqb_spec a dquote) as [-> | Hq].
    + simpl. rewrite IH. now rewrite append_assoc.
    + simpl. apply Ascii.eqb_neq in Hq. rewrite Hq.
      rewrite IH. now rewrite append_assoc.
Qed.

(** The line terminator met in or after a field ends the record. *)
Lemma read_terminator (st : reader_state) (field : string)
      (fields : list string) (rest : string) :
  st = InField \/ st = QuoteInQuotedField
  \/ (st = StartField /\ field = "") ->
  csv_read_from universal st field fields (lineterminator ++ rest)
  = (fields ++ [field])%list :: csv_read_from universal StartRecord "" [] rest.
Proof.
  intros Hst.
  destruct lineterminator_known as [E | E].
  - rewrite E.
    destruct Hst as [-> | [-> | [-> ->]]]; reflexivity.
  - rewrite (universal_if_CR ltac:(rewrite E; reflexivity)). rewrite E.
    destruct Hst as [-> | [-> | [-> ->]]]; reflexivity.
Qed.

Lemma read_empty_row (rest : string) :
  csv_read_from universal StartRecord "" [] (lineterminator ++ rest)
  = [] :: csv_read_from universal StartRecord "" [] rest.
Proof.
  destruct lineterminator_known as [E | E].
  - rewrite E. reflexivity.
  - rewrite (universal_if_CR ltac:(rewrite E; reflexivity)). rewrite E.
    reflexivity.
Qed.

(** After a written field the reader holds its value, in a state where
    a comma closes the field and the line terminator closes the
    record. *)
Lemma read_field (cell : string) (fields : list string) (rest : string) :
  reads_back universal lineterminator cell ->
  exists st,
    (st = InField \/ st = QuoteInQuotedField
     \/ (st = StartField /\ cell = ""))
    /\ csv_read_from universal StartField "" fields
                     (csv_field lineterminator cell ++ rest)
       = csv_read_from universal st cell fields rest.
Proof.
  intros Hr. unfold csv_field.
  destruct (has_special lineterminator cell) eqn:Hs.
  - exists QuoteInQuotedField. split; [auto |].
    cbn [append csv_read_from].
    replace (Ascii.eqb dquote LF || (universal && Ascii.eqb dquote CR))
      with false by (now destruct universal).
    rewrite Ascii.eqb_refl, append_assoc. cbn [append].
    now rewrite read_quoted.
  - destruct cell as [| a s].
    + exists StartField. auto.
    + exists InField. split; [auto |].
      destruct (plain_char a s Hr Hs) as (Hc & Hq & He & Hs' & Hr').
      cbn [append csv_read_from]. rewrite He, Hq, Hc.
      now rewrite read_unquoted.
Qed.

Lemma read_comma (st : reader_state) (field : string)
      (fields : list string) (rest : string) :
  st = InField \/ st = QuoteInQuotedField
  \/ (st = StartField /\ field = "") ->
  csv_read_from universal st field fields (String comma rest)
  = csv_read_from universal StartField "" (fields ++ [field])%list rest.
Proof.
  intros [-> | [-> | [-> ->]]]; cbn [csv_read_from];
    replace (Ascii.eqb comma LF || (universal && Ascii.eqb comma CR))
      with false by (now destruct universal);
    reflexivity.
Qed.

Lemma read_fields (cells fields : list string) (rest : string) :
  cells <> [] ->
  Forall (reads_back universal lineterminator) cells ->
  csv_read_from universal StartField "" fields
                (join "," (map (csv_field lineterminator) cells)
                 ++ lineterminator ++ rest)
  = (fields ++ cells)%list :: csv_read_from universal StartRecord "" [] rest.
Proof.
  revert fields. induction cells as [| cell more IH]; intros fields N F.
  - contradiction.
  - inversion F as [| ? ? Hcell Hmore]; subst.
    destruct more as [| cell' more'].
    + change (join "," (map (csv_field lineterminator) [cell]))
        with (csv_field lineterminator cell).
      destruct (read_field cell fields (lineterminator ++ rest) Hcell)
        as (st & Hst & ->).
      now apply read_terminator.
    + change (join "," (map (csv_field lineterminator) (cell :: cell' :: more')))
        with (csv_field lineterminator cell ++ ","
              ++ join "," (map (csv_field lineterminator) (cell' :: more')))%string.
      rewrite !append_assoc.
      change ("," ++ join "," (map (csv_field lineterminator) (cell' :: more'))
              ++ lineterminator ++ rest)%string
        with (String comma
                (join "," (map (csv_field lineterminator) (cell' :: more'))
                 ++ lineterminator ++ rest)).
      destruct (read_field cell fields
                  (String comma
                     (join "," (map (csv_field lineterminator) (cell' :: more'))
                      ++ lineterminator ++ rest)) Hcell)
        as (st & Hst & ->).
      rewrite read_comma by assumption.
      rewrite IH; [| discriminate | assumption].
      now rewrite <- app_assoc.
Qed.

(** A record that does not start with a line end is read as its first
    field is. *)
Lemma read_row_start (a : ascii) (text : string) :
  Ascii.eqb a LF || (universal && Ascii.eqb a CR) = false ->
  csv_read_from universal StartRecord "" [] (String a text)
  = csv_read_from universal StartField "" [] (String a text).
Proof.
  intros H. cbn [csv_read_from]. rewrite H. reflexivity.
Qed.

Lemma csv_field_head (cell : string) (a : ascii) (s : string) :
  reads_back universal lineterminator cell ->
  csv_field lineterminator cell = String a s ->
  Ascii.eqb a LF || (universal && Ascii.eqb a CR) = false.
Proof.
  intros Hr. unfold csv_field.
  destruct (has_special lineterminator cell) eqn:Hs.
  - intros E. inversion E; subst. now destruct universal.
  - intros ->. now destruct (plain_char a s Hr Hs) as (_ & _ & He & _).
Qed.

Lemma csv_row_join (cell cell' : string) (more : list string) :
  csv_row lineterminator (cell :: cell' :: more)
  = (csv_field lineterminator cell
     ++ String comma (join "," (map (csv_field lineterminator) (cell' :: more)))
     ++ lineterminator)%string.
Proof.
  unfold csv_row.
  change (join "," (map (csv_field lineterminator) (cell :: cell' :: more)))
    with (csv_field lineterminator cell ++ ","
          ++ join "," (map (csv_field lineterminator) (cell' :: more)))%string.
  rewrite append_assoc. now destruct cell.
Qed.

Lemma csv_field_empty (cell : string) :
  csv_field lineterminator cell = "" -> cell = "".
Proof.
  unfold csv_field.
  destruct (has_special lineterminator cell); [discriminate | auto].
Qed.

Lemma read_row_start_field (cell text : string) :
  reads_back universal lineterminator cell ->
  cell <> "" ->
  csv_read_from universal StartRecord "" []
                (csv_field lineterminator cell ++ text)
  = csv_read_from universal StartField "" []
                  (csv_field lineterminator cell ++ text).
Proof.
  intros Hr N. destruct (csv_field lineterminator cell) as [| b t] eqn:E.
  - apply csv_field_empty in E. contradiction.
  - cbn [append]. apply read_row_start.
    eapply csv_field_head; eassumption.
Qed.

(** Reading a written row gives its cells, and the reader is then at the
    start of the next record. *)
Lemma read_row (cells : list string) (rest : string) :
  Forall (reads_back universal lineterminator) cells ->
  csv_read_from universal StartRecord "" [] (csv_row lineterminator cells ++ rest)
  = cells :: csv_read_from universal StartRecord "" [] rest.
Proof.
  intros F. destruct cells as [| cell more].
  - apply read_empty_row.
  - inversion F as [| ? ? Hcell Hmore]; subst.
    destruct more as [| cell' more'].
    + destruct cell as [| a s].
      * cbn [csv_row append csv_read_from].
        replace (Ascii.eqb dquote LF || (universal && Ascii.eqb dquote CR))
          with false by (now destruct universal).
        rewrite !Ascii.eqb_refl.
        exact (read_terminator QuoteInQuotedField "" [] rest ltac:(auto)).
      * unfold csv_row. rewrite append_assoc.
        change (join "," (map (csv_field lineterminator) [String a s]))
          with (csv_field lineterminator (String a s)).
        rewrite read_row_start_field by (assumption || discriminate).
        exact (read_fields [String a s] [] rest ltac:(discriminate) F).
    + rewrite csv_row_join, !append_assoc.
      destruct (String.eqb_spec cell "") as [-> | N].
      * cbn [csv_field has_special append csv_read_from].
        replace (Ascii.eqb comma LF || (universal && Ascii.eqb comma CR))
          with false by (now destruct universal).
        change (Ascii.eqb comma dquote) with false.
        rewrite Ascii.eqb_refl.
        exact (read_fields (cell' :: more') [""] rest
                 ltac:(discriminate) Hmore).
      * rewrite read_row_start_field by assumption.
        destruct (read_field cell []
                    (String comma
                       (join "," (map (csv_field lineterminator)
                                      (cell' :: more')))
                     ++ lineterminator ++ rest) Hcell)
          as (st & Hst & ->).
        cbn [append]. rewrite read_comma by assumption.
        exact (read_fields (cell' :: more') [cell] rest
                 ltac:(discriminate) Hmore).
Qed.

Lemma read_rows (rows : list (list string)) :
  Forall (Forall (reads_back universal lineterminator)) rows ->
  csv_read universal (concat_str (map (csv_row lineterminator) rows)) = rows.
Proof.
  unfold csv_read. induction rows as [| cells rows IH]; intros F.
  - reflexivity.
  - inversion F; subst. cbn [map concat_str fold_right].
    rewrite read_row by assumption.
    f_equal. now apply IH.
Qed.









End Reader.

(** ** [int] reads what [str] writes *)

Lemma str_chars_cons (a : ascii) (rest : string) :
  starts_with_continuation rest = false ->
  str_chars (String a rest) = String a "" :: str_chars rest.
Proof.
  intros H. simpl. rewrite H. now destruct (str_chars rest).
Qed.

Lemma string_of_uint_head (d : Decimal.uint) :
  starts_with_continuation (NilEmpty.string_of_uint d) = false.
Proof.
  destruct d; reflexivity.
Qed.

Lemma tokens_of_uint (d : Decimal.uint) :
  map int_token_of (str_chars (NilEmpty.string_of_uint d)) = digit_tokens d.
Proof.
  induction d; [reflexivity | ..];
    cbn [NilEmpty.string_of_uint digit_tokens];
    rewrite str_chars_cons by apply string_of_uint_head;
    cbn [map]; rewrite IHd; reflexivity.
Qed.

Lemma scan_digit_tokens (d : Decimal.uint) (acc : Z) (count : nat) :
  scan_digits false acc count (digit_tokens d)
  = Some (tokens_value acc (digit_tokens d),
          (count + String.length (NilEmpty.string_of_uint d))%nat, []).
Proof.
  revert acc count.
  induction d; intros acc count;
    cbn [digit_tokens scan_digits tokens_value NilEmpty.string_of_uint
         String.length];
    [now rewrite Nat.add_0_r | ..];
    rewrite IHd; now rewrite Nat.add_succ_r.
Qed.

Lemma tokens_value_acc (d : Decimal.uint) (p : positive) :
  tokens_value (Z.pos p) (digit_tokens d) = Z.pos (Pos.of_uint_acc d p).
Proof.
  revert p. induction d; intros p; cbn [digit_tokens tokens_value Pos.of_uint_acc];
    [reflexivity | ..];
    match goal with
    | |- tokens_value ?a _ = Z.pos (Pos.of_uint_acc _ ?q) =>
        replace a with (Z.pos q) by lia
    end; apply IHd.
Qed.

Lemma tokens_value_of_uint (d : Decimal.uint) :
  tokens_value 0 (digit_tokens d) = Z.of_N (Pos.of_uint d).
Proof.
  induction d; cbn [digit_tokens tokens_value Pos.of_uint];
    [reflexivity | exact IHd | ..];
    match goal with
    | |- tokens_value ?a _ = Z.of_N (N.pos (Pos.of_uint_acc _ ?q)) =>
        change a with (Z.pos q)
    end; apply tokens_value_acc.
Qed.

Lemma tokens_value_to_uint (p : positive) :
  tokens_value 0 (digit_tokens (Pos.to_uint p)) = Z.pos p.
Proof.
  rewrite tokens_value_of_uint, DecimalPos.Unsigned.of_to. reflexivity.
Qed.

Lemma digit_tokens_shape (d : Decimal.uint) :
  d <> Decimal.Nil ->
  exists k rest, digit_tokens d = TDigit k :: rest.
Proof.
  destruct d; [congruence | ..]; simpl; eauto.
Qed.

Lemma string_of_uint_nonnil (d : Decimal.uint) :
  d <> Decimal.Nil ->
  NilZero.string_of_uint d = NilEmpty.string_of_uint d.
Proof.
  destruct d; [congruence | ..]; reflexivity.
Qed.

Lemma int_of_digit_tokens (negative : bool) (d : Decimal.uint) :
  d <> Decimal.Nil ->
  (String.length (NilEmpty.string_of_uint d) <= int_max_str_digits)%nat ->
  int_of_tokens negative (digit_tokens d)
  = Some (if negative then - tokens_value 0 (digit_tokens d)
          else tokens_value 0 (digit_tokens d)).
Proof.
  intros N L. unfold int_of_tokens.
  destruct (digit_tokens_shape d N) as (k & rest & D).
  assert (String.length (NilEmpty.string_of_uint d) <> 0)%nat as L0
    by (destruct d; [congruence | ..]; discriminate).
  rewrite scan_digit_tokens. rewrite D at 1. cbn [Nat.add].
  apply Nat.eqb_neq in L0. rewrite L0.
  apply Nat.ltb_ge in L. rewrite L. reflexivity.
Qed.

Lemma py_int_digits (negative : bool) (d : Decimal.uint) (s : string) :
  d <> Decimal.Nil ->
  (String.length (NilEmpty.string_of_uint d) <= int_max_str_digits)%nat ->
  map int_token_of (str_chars s)
  = ((if negative then [TMinus] else []) ++ digit_tokens d)%list ->
  py_int s
  = Some (if negative then - tokens_value 0 (digit_tokens d)
          else tokens_value 0 (digit_tokens d)).
Proof.
  intros N L E. unfold py_int. rewrite E.
  destruct (digit_tokens_shape d N) as (k & rest & D).
  destruct negative.
  - cbn [app skip_spaces]. now apply int_of_digit_tokens.
  - cbn [app]. rewrite D at 1. cbn [skip_spaces]. rewrite <- D.
    now apply int_of_digit_tokens.
Qed.

Lemma digits_of_pos (p : positive) :
  digits_of (Z.pos p)
  = String.length (NilEmpty.string_of_uint (Pos.to_uint p)).
Proof.
  unfold digits_of, str_of_int. simpl.
  now rewrite string_of_uint_nonnil by apply DecimalPos.Unsigned.to_uint_nonnil.
Qed.

Lemma digits_of_neg (p : positive) :
  digits_of (Z.neg p) = digits_of (Z.pos p).
Proof. reflexivity. Qed.

(** [int(str(n))] is [n], for an [n] that [str] can write. *)
Lemma py_int_str_of_int (n : Z) :
  (digits_of n <= int_max_str_digits)%nat ->
  py_int (str_of_int n) = Some n.
Proof.
  destruct n as [| p | p]; intros L.
  - reflexivity.
  - rewrite digits_of_pos in L.
    rewrite (py_int_digits false (Pos.to_uint p)).
    + now rewrite tokens_value_to_uint.
    + apply DecimalPos.Unsigned.to_uint_nonnil.
    + exact L.
    + change (str_of_int (Z.pos p))
        with (NilZero.string_of_uint (Pos.to_uint p)).
      rewrite string_of_uint_nonnil
        by apply DecimalPos.Unsigned.to_uint_nonnil.
      apply tokens_of_uint.
  - rewrite digits_of_neg, digits_of_pos in L.
    rewrite (py_int_digits true (Pos.to_uint p)).
    + now rewrite tokens_value_to_uint.
    + apply DecimalPos.Unsigned.to_uint_nonnil.
    + exact L.
    + change (str_of_int (Z.neg p))
        with (String "-" (NilZero.string_of_uint (Pos.to_uint p))).
      rewrite string_of_uint_nonnil
        by apply DecimalPos.Unsigned.to_uint_nonnil.
      rewrite str_chars_cons by apply string_of_uint_head.
      cbn [map app]. now rewrite tokens_of_uint.
Qed.

(** ** The frame as CSV *)

Lemma frame_cells_rows (df : DataFrame) (rows : list (list string)) :
  frame_cells df = Some rows ->
  Forall2 (fun r cells => row_cells r = Some cells) df rows.
Proof.
  revert rows. induction df as [| r df IH]; simpl; intros rows H.
  - inversion H. constructor.
  - destruct (row_cells r) as [cells |] eqn:R; [| discriminate].
    destruct (frame_cells df) as [others |]; [| discriminate].
    inversion H; subst. constructor; auto.
Qed.

Lemma frame_cells_length (df : DataFrame) (rows : list (list string)) :
  frame_cells df = Some rows -> length rows = length df.
Proof.
  intros H. apply frame_cells_rows in H.
  induction H; simpl; congruence.
Qed.

Lemma to_csv_text (linesep : string) (df : DataFrame)
      (rows : list (list string)) :
  frame_cells df = Some rows ->
  to_csv linesep df
  = Some (csv_row linesep columns
          ++ concat_str (map (csv_row linesep) rows))%string.
Proof.
  intros H. unfold to_csv. now rewrite H.
Qed.


(** The reader that breaks records where the writer ends them reads
    every cell back; a reader that breaks them at every carriage return
    reads back the cells that hold none. *)
Lemma reads_back_dialect (linesep cell : string) :
  reads_back (occurs CR linesep) linesep cell.
Proof.
  intros U H. now apply (has_special_free linesep CR cell).
Qed.

Lemma reads_back_free (universal : bool) (linesep cell : string) :
  occurs CR cell = false -> reads_back universal linesep cell.
Proof.
  intros H _ _. exact H.
Qed.

Lemma all_read_back_dialect (linesep : string) (rows : list (list string)) :
  Forall (Forall (reads_back (occurs CR linesep) linesep)) rows.
Proof.
  apply Forall_forall. intros cells _. apply Forall_forall. intros cell _.
  apply reads_back_dialect.
Qed.

Lemma all_read_back_free (universal : bool) (linesep : string)
      (rows : list (list string)) :
  free_of CR rows = true ->
  Forall (Forall (reads_back universal linesep)) rows.
Proof.
  unfold free_of. rewrite forallb_forall. intros H.
  apply Forall_forall. intros cells Hc. apply Forall_forall. intros cell Hin.
  specialize (H cells Hc). rewrite forallb_forall in H.
  specialize (H cell Hin). apply reads_back_free.
  now apply negb_true_iff in H.
Qed.

(** Reading the text of a frame gives the header and then the cells of
    every record. *)
Lemma read_to_csv (universal : bool) (linesep : string)
      (rows : list (list string)) :
  platform_linesep linesep ->
  (occurs CR linesep = true -> universal = true) ->
  Forall (Forall (reads_back universal linesep)) rows ->
  csv_read universal
           (csv_row linesep columns ++ concat_str (map (csv_row linesep) rows))
  = columns :: rows.
Proof.
  intros P U F.
  change (csv_row linesep columns
          ++ concat_str (map (csv_row linesep) rows))%string
    with (concat_str (map (csv_row linesep) (columns :: rows))).
  apply read_rows; try assumption.
  constructor; [| assumption].
  repeat constructor; apply reads_back_free; reflexivity.
Qed.

Lemma all_read_back_universal (linesep : string)
      (rows : list (list string)) :
  linesep = windows_linesep \/ free_of CR rows = true ->
  Forall (Forall (reads_back true linesep)) rows.
Proof.
  intros [-> | H].
  - exact (all_read_back_dialect windows_linesep rows).
  - now apply all_read_back_free.
Qed.

Lemma cell_text_values (v : json) (s : string) :
  cell_text v = Some s ->
  v = JStr s \/ (v = JNull /\ s = "")
  \/ exists n, v = JInt n /\ s = str_of_int n /\ py_int s = Some n.
Proof.
  destruct v; try discriminate; simpl.
  - intros H. inversion H. auto.
  - destruct (Nat.leb_spec (digits_of n) int_max_str_digits) as [L | L];
      [| discriminate].
    intros H. inversion H; subst. right. right. exists n.
    split; [reflexivity |]. split; [reflexivity |].
    now apply py_int_str_of_int.
  - intros H. inversion H. now left.
Qed.

Lemma data_model_cells (r : record) :
  data_model_record r = true ->
  exists cells, row_cells r = Some cells /\ same_values r cells.
Proof.
  unfold data_model_record, row_cells, same_values.
  destruct r as [t d y a]; simpl. intros H.
  apply andb_true_iff in H as [H Hy]. apply andb_true_iff in H as [Ht Hd].
  destruct t; try discriminate. destruct d; try discriminate. simpl.
  destruct (cell_text y) as [ytext |] eqn:Y.
  - eexists. split; [reflexivity |]. exists s, s0, ytext.
    repeat split.
    destruct (cell_text_values y ytext Y) as [E | [[E _] | (n & E & _ & P)]];
      [auto | subst y; discriminate | eauto].
  - destruct y; try discriminate. simpl in Y. now rewrite Hy in Y.
Qed.

Lemma data_model_frame (df : DataFrame) :
  forallb data_model_record df = true ->
  exists rows, frame_cells df = Some rows /\ Forall2 same_values df rows.
Proof.
  induction df as [| r df IH]; simpl; intros H.
  - exists []. split; [reflexivity | constructor].
  - apply andb_true_iff in H as [Hr Hdf].
    destruct (data_model_cells r Hr) as (cells & Ec & Sc).
    destruct (IH Hdf) as (rows & Er & Sr).
    exists (cells :: rows). rewrite Ec, Er. split; [reflexivity |].
    now constructor.
Qed.



(** *** Surrogates in the text written *)

Lemma plain_byte_cases (a : ascii) :
  plain_byte a = true ->
  (N_of_ascii a =? 237)%N = false
  /\ ((160 <=? N_of_ascii a)%N && (N_of_ascii a <? 192)%N) = false.
Proof.
  unfold plain_byte. intros H. apply N.ltb_lt in H. split.
  - apply N.eqb_neq. lia.
  - apply andb_false_iff. left. apply N.leb_gt. lia.
Qed.

Lemma surrogate_after_plain_head (lead : bool) (a : ascii) (t : string) :
  plain_byte a = true ->
  surrogate_after lead (String a t) = surrogate_after false t.
Proof.
  intros H. destruct (plain_byte_cases a H) as [E R].
  cbn [surrogate_after]. rewrite E, <- andb_assoc, R, andb_false_r.
  reflexivity.
Qed.

(** An ASCII byte between two texts keeps their surrogates apart. *)
Lemma surrogate_after_sep (lead : bool) (s : string) (a : ascii) (t : string) :
  plain_byte a = true ->
  surrogate_after lead (s ++ String a t)
  = surrogate_after lead s || surrogate_after false t.
Proof.
  intros H. revert lead. induction s as [| b s IH]; intros lead.
  - cbn [append]. now rewrite (surrogate_after_plain_head lead a t H).
  - cbn [append surrogate_after]. rewrite IH. now rewrite orb_assoc.
Qed.

Lemma surrogate_after_bytes (lead : bool) (s : string) :
  all_bytes plain_byte s = true -> surrogate_after lead s = false.
Proof.
  revert lead. induction s as [| a s IH]; intros lead H; [reflexivity |].
  cbn [all_bytes] in H. apply andb_true_iff in H as [Ha Hs].
  rewrite (surrogate_after_plain_head lead a s Ha). now apply IH.
Qed.

Lemma surrogate_double_quotes (lead : bool) (s : string) :
  surrogate_after lead (double_quotes s) = surrogate_after lead s.
Proof.
  revert lead. induction s as [| a s IH]; intros lead; [reflexivity |].
  cbn [double_quotes]. destruct (Ascii.eqb_spec a dquote) as [-> | N].
  - rewrite !(surrogate_after_plain_head _ dquote) by reflexivity. apply IH.
  - cbn [surrogate_after]. now rewrite IH.
Qed.

Lemma surrogate_csv_field (lineterminator s : string) :
  has_surrogate (csv_field lineterminator s) = has_surrogate s.
Proof.
  unfold csv_field, has_surrogate.
  destruct (has_special lineterminator s); [| reflexivity].
  rewrite (surrogate_after_plain_head false dquote) by reflexivity.
  rewrite (surrogate_after_sep false _ dquote "") by reflexivity.
  rewrite surrogate_double_quotes. apply orb_false_r.
Qed.

Lemma surrogate_join (fields : list string) :
  has_surrogate (join "," fields) = existsb has_surrogate fields.
Proof.
  induction fields as [| p [| q rest] IH]; [reflexivity | |].
  - cbn [join existsb]. now rewrite orb_false_r.
  - change (join "," (p :: q :: rest))
      with (p ++ String comma (join "," (q :: rest)))%string.
    unfold has_surrogate at 1. rewrite surrogate_after_sep by reflexivity.
    fold (has_surrogate p). fold (has_surrogate (join "," (q :: rest))).
    now rewrite IH.
Qed.

Lemma surrogate_fields (lineterminator : string) (cells : list string) :
  existsb has_surrogate (map (csv_field lineterminator) cells)
  = existsb has_surrogate cells.
Proof.
  induction cells as [| c cells IH]; [reflexivity |].
  cbn [map existsb]. now rewrite surrogate_csv_field, IH.
Qed.

Lemma surrogate_line (lineterminator line rest : string) :
  platform_linesep lineterminator ->
  has_surrogate ((line ++ lineterminator) ++ rest)
  = has_surrogate line || has_surrogate rest.
Proof.
  unfold has_surrogate. intros [-> | ->]; rewrite append_assoc.
  - change (posix_linesep ++ rest)%string with (String LF rest).
    now rewrite surrogate_after_sep by reflexivity.
  - change (windows_linesep ++ rest)%string with (String CR (String LF rest)).
    rewrite surrogate_after_sep by reflexivity.
    now rewrite (surrogate_after_plain_head false LF) by reflexivity.
Qed.

Lemma surrogate_csv_row (lineterminator : string) (cells : list string)
      (rest : string) :
  platform_linesep lineterminator ->
  has_surrogate (csv_row lineterminator cells ++ rest)
  = existsb has_surrogate cells || has_surrogate rest.
Proof.
  intros P.
  assert (has_surrogate
            ((join "," (map (csv_field lineterminator) cells)
              ++ lineterminator) ++ rest)
          = existsb has_surrogate cells || has_surrogate rest) as general
    by (rewrite (surrogate_line _ _ _ P), surrogate_join;
        now rewrite surrogate_fields).
  destruct cells as [| [| a c] [| c' cs]]; exact general.
Qed.

Lemma surrogate_rows (lineterminator : string) (rows : list (list string)) :
  platform_linesep lineterminator ->
  has_surrogate (concat_str (map (csv_row lineterminator) rows))
  = existsb (existsb has_surrogate) rows.
Proof.
  intros P. induction rows as [| cells rows IH]; [reflexivity |].
  change (concat_str (map (csv_row lineterminator) (cells :: rows)))
    with (csv_row lineterminator cells
          ++ concat_str (map (csv_row lineterminator) rows))%string.
  rewrite (surrogate_csv_row _ _ _ P), IH. reflexivity.
Qed.

(** *** The bytes of the decimal writing *)

Lemma uint_bytes (d : Decimal.uint) :
  all_bytes sign_or_digit (NilEmpty.string_of_uint d) = true.
Proof.
  induction d; cbn [NilEmpty.string_of_uint all_bytes]; [reflexivity | ..];
    rewrite IHd; reflexivity.
Qed.

Lemma str_of_int_bytes (n : Z) : all_bytes sign_or_digit (str_of_int n) = true.
Proof.
  destruct n as [| p | p]; [reflexivity | |].
  - change (str_of_int (Z.pos p))
      with (NilZero.string_of_uint (Pos.to_uint p)).
    rewrite string_of_uint_nonnil
      by apply DecimalPos.Unsigned.to_uint_nonnil.
    apply uint_bytes.
  - change (str_of_int (Z.neg p))
      with (String "-" (NilZero.string_of_uint (Pos.to_uint p))).
    rewrite string_of_uint_nonnil
      by apply DecimalPos.Unsigned.to_uint_nonnil.
    cbn [all_bytes]. now rewrite uint_bytes.
Qed.

Lemma sign_or_digit_plain (a : ascii) :
  sign_or_digit a = true -> plain_byte a = true.
Proof.
  unfold sign_or_digit, plain_byte. intros H.
  apply orb_true_iff in H as [H | H].
  - apply Ascii.eqb_eq in H. now subst.
  - apply andb_true_iff in H as [_ H]. apply N.leb_le in H.
    apply N.ltb_lt. lia.
Qed.

Lemma all_bytes_weaken (p q : ascii -> bool) (s : string) :
  (forall a, p a = true -> q a = true) ->
  all_bytes p s = true -> all_bytes q s = true.
Proof.
  intros W. induction s as [| a s IH]; [reflexivity |].
  cbn [all_bytes]. intros H. apply andb_true_iff in H as [Ha Hs].
  now rewrite (W a Ha), IH.
Qed.

Lemma occurs_bytes (q : ascii -> bool) (a : ascii) (s : string) :
  all_bytes q s = true -> q a = false -> occurs a s = false.
Proof.
  intros H N. induction s as [| b s IH]; [reflexivity |].
  cbn [all_bytes] in H. apply andb_true_iff in H as [Hb Hs].
  cbn [occurs]. rewrite (IH Hs).
  destruct (Ascii.eqb_spec a b) as [-> | D]; [congruence | reflexivity].
Qed.

Lemma cell_text_surrogate (v : json) (s : string) :
  cell_text v = Some s -> has_surrogate s = cell_has_surrogate v.
Proof.
  destruct v; try discriminate; simpl.
  - intros H. now inversion H.
  - destruct (digits_of n <=? int_max_str_digits)%nat; [| discriminate].
    intros H. inversion H. apply surrogate_after_bytes.
    apply (all_bytes_weaken sign_or_digit); [apply sign_or_digit_plain |].
    apply str_of_int_bytes.
  - intros H. now inversion H.
Qed.

Lemma cell_text_holds (a : ascii) (v : json) (s : string) :
  sign_or_digit a = false ->
  cell_text v = Some s -> occurs a s = cell_holds a v.
Proof.
  intros N. destruct v; try discriminate; simpl.
  - intros H. now inversion H.
  - destruct (digits_of n <=? int_max_str_digits)%nat; [| discriminate].
    intros H. inversion H.
    exact (occurs_bytes sign_or_digit a _ (str_of_int_bytes n) N).
  - intros H. now inversion H.
Qed.

Lemma row_cells_text (r : record) (cells : list string) :
  row_cells r = Some cells ->
  exists t d y,
    cells = [t; d; y; Authors r]
    /\ cell_text (Title r) = Some t /\ cell_text (DOI r) = Some d
    /\ cell_text (Year r) = Some y.
Proof.
  unfold row_cells.
  destruct (cell_text (Title r)) as [t |]; [| discriminate].
  destruct (cell_text (DOI r)) as [d |]; [| discriminate].
  destruct (cell_text (Year r)) as [y |]; [| discriminate].
  intros H. inversion H. exists t, d, y. auto.
Qed.

Lemma frame_cells_surrogate (df : DataFrame) (rows : list (list string)) :
  frame_cells df = Some rows ->
  existsb (existsb has_surrogate) rows = frame_has_surrogate df.
Proof.
  intros H. apply frame_cells_rows in H.
  induction H as [| r cells df rows R _ IH]; [reflexivity |].
  destruct (row_cells_text r cells R) as (t & d & y & -> & Et & Ed & Ey).
  unfold frame_has_surrogate in *. cbn [existsb]. rewrite IH.
  unfold record_has_surrogate.
  rewrite (cell_text_surrogate _ _ Et), (cell_text_surrogate _ _ Ed),
    (cell_text_surrogate _ _ Ey).
  now rewrite orb_false_r, !orb_assoc.
Qed.

Lemma frame_cells_free (a : ascii) (df : DataFrame)
      (rows : list (list string)) :
  sign_or_digit a = false ->
  frame_cells df = Some rows ->
  free_of a rows = negb (frame_holds a df).
Proof.
  intros N H. apply frame_cells_rows in H.
  induction H as [| r cells df rows R _ IH]; [reflexivity |].
  destruct (row_cells_text r cells R) as (t & d & y & -> & Et & Ed & Ey).
  unfold free_of, frame_holds in *. cbn [forallb existsb]. rewrite IH.
  unfold record_holds.
  rewrite (cell_text_holds a _ _ N Et), (cell_text_holds a _ _ N Ed),
    (cell_text_holds a _ _ N Ey).
  destruct (cell_holds a (Title r)), (cell_holds a (DOI r)),
    (cell_holds a (Year r)), (occurs a (Authors r)); reflexivity.
Qed.

(** The text written holds a surrogate exactly when a [str] cell of the
    frame does, so that the frames that [csv_bytes] refuses are those
    whose text [encode_utf8] refuses. *)
Lemma to_csv_surrogate (linesep : string) (df : DataFrame) (text : string) :
  platform_linesep linesep ->
  to_csv linesep df = Some text ->
  has_surrogate text = frame_has_surrogate df.
Proof.
  intros P T.
  destruct (frame_cells df) as [rows |] eqn:F;
    [| unfold to_csv in T; rewrite F in T; discriminate].
  rewrite (to_csv_text linesep df rows F) in T.
  assert (text = (csv_row linesep columns
                  ++ concat_str (map (csv_row linesep) rows))%string) as ->
    by congruence.
  rewrite (surrogate_csv_row _ _ _ P), (surrogate_rows _ _ P).
  now rewrite (frame_cells_surrogate df rows F).
Qed.

Lemma csv_bytes_encode (linesep : string) (df : DataFrame) (text : string) :
  platform_linesep linesep ->
  to_csv linesep df = Some text ->
  csv_bytes linesep df = (data <- encode_utf8 text ;; Ok (Some data)).
Proof.
  intros P T. unfold csv_bytes, encode_utf8.
  rewrite (to_csv_surrogate linesep df text P T), T.
  now destruct (frame_has_surrogate df).
Qed.

(** *** The download view *)


Lemma download_csv_sends (linesep : string) (g : cache) (df : DataFrame) :
  _latest_results_df g = Some df -> df <> [] ->
  frame_has_surrogate df = false ->
  download_csv linesep g
  = {| globals := g; flashed := []; upstream_calls := [];
       result_of :=
         Returns (send_file (to_csv linesep df) "text/csv" true
                            "crossref_results.csv") |}.
Proof.
  intros E N S. unfold download_csv, csv_bytes. rewrite E.
  destruct df; [contradiction |]. cbn [empty]. now rewrite S.
Qed.

Lemma download_csv_raises (linesep : string) (g : cache) (df : DataFrame) :
  _latest_results_df g = Some df -> df <> [] ->
  frame_has_surrogate df = true ->
  download_csv linesep g
  = {| globals := g; flashed := []; upstream_calls := [];
       result_of := Propagates UnicodeEncodeError |}.
Proof.
  intros E N S. unfold download_csv, csv_bytes. rewrite E.
  destruct df; [contradiction |]. cbn [empty]. now rewrite S.
Qed.




(** C9, amended: for a result set of the data model (title and
    identifier text, year an integer or text), on a platform whose line
    terminator has a carriage return or when no text of the set holds
    one, reading the CSV text that the download writes (and sends, when
    no text holds a surrogate), as [csv.reader] reads it, gives back
    after the header one row per record with the same title, identifier
    and authors, and with the year as it was or, for an integer year,
    as the text that [int] converts back to it. *)
Theorem csv_round_trip (linesep : string) (df : DataFrame) :
  platform_linesep linesep ->
  forallb data_model_record df = true ->
  linesep = windows_linesep \/ frame_holds CR df = false ->
  exists text rows,
    to_csv linesep df = Some text
    /\ (frame_has_surrogate df = false ->
        csv_bytes linesep df = Ok (Some text))
    /\ csv_read true text = columns :: rows
    /\ Forall2 same_values df rows.
Proof.
  intros P H C. destruct (data_model_frame df H) as (rows & F & S).
  pose proof (to_csv_text linesep df rows F) as T.
  exists (csv_row linesep columns
          ++ concat_str (map (csv_row linesep) rows))%string, rows.
  split; [exact T |]. split; [| split; [| assumption]].
  - intros N. unfold csv_bytes. now rewrite N, T.
  - apply read_to_csv; [assumption | auto |].
    apply all_read_back_universal. destruct C as [C | C]; [now left |].
    right.
    now rewrite (frame_cells_free CR df rows eq_refl F), C.
Qed.

Lemma csv_round_trip_witness :
  (exists text rows,
      to_csv posix_linesep Sample.three_records = Some text
      /\ (frame_has_surrogate Sample.three_records = false ->
          csv_bytes posix_linesep Sample.three_records = Ok (Some text))
      /\ csv_read true text = columns :: rows
      /\ Forall2 same_values Sample.three_records rows)
  /\ (exists text rows,
        to_csv windows_linesep [Sample.carriage_return_record] = Some text
        /\ (frame_has_surrogate [Sample.carriage_return_record] = false ->
            csv_bytes windows_linesep [Sample.carriage_return_record]
            = Ok (Some text))
        /\ csv_read true text = columns :: rows
        /\ Forall2 same_values [Sample.carriage_return_record] rows).
Proof.
  split.
  - apply (csv_round_trip posix_linesep Sample.three_records);
      [now left | reflexivity | now right].
  - apply (csv_round_trip windows_linesep [Sample.carriage_return_record]);
      [now right | reflexivity | now left].
Defined.

(** C9 as stated fails.  With a line feed as terminator a carriage
    return in a title is written without quotes and [csv.reader]
    breaks the record there: one record is read back as two rows.  And
    a null identifier is written as nothing and read back as the empty
    text. *)
Lemma csv_round_trip_fails :
  (from_records [Sample.carriage_return_record]
   = Ok [Sample.carriage_return_record]
   /\ exists text,
        to_csv posix_linesep [Sample.carriage_return_record] = Some text
        /\ csv_read true text
           = [columns; ["a"]; ["b"; ""; "2020"; "Unknown"]])
  /\ (from_records [Sample.null_doi_record] = Ok [Sample.null_doi_record]
      /\ exists text,
           to_csv posix_linesep [Sample.null_doi_record] = Some text
           /\ csv_read true text
              = [columns; ["Untitled"; ""; "2020"; "Unknown"]]
           /\ DOI Sample.null_doi_record = JNull
           /\ ~ same_values Sample.null_doi_record
                            ["Untitled"; ""; "2020"; "Unknown"]).
Proof.
  split; (split; [reflexivity |]).
  - eexists. split; reflexivity.
  - eexists. split; [reflexivity |]. split; [reflexivity |].
    split; [reflexivity |].
    intros (t & d & y & _ & _ & D & _). discriminate.
Qed.

(** X17: a reader that breaks records at every carriage return, as
    [csv.reader] does, reads the same rows on either platform when no
    cell holds a carriage return. *)
Lemma csv_round_trip_universal (linesep : string) (df : DataFrame)
      (rows : list (list string)) :
  platform_linesep linesep ->
  frame_cells df = Some rows ->
  free_of CR rows = true ->
  exists text,
    to_csv linesep df = Some text /\ csv_read true text = columns :: rows.
Proof.
  intros P F C.
  exists (csv_row linesep columns
          ++ concat_str (map (csv_row linesep) rows))%string.
  split; [now apply to_csv_text |].
  apply read_to_csv; [assumption | auto | now apply all_read_back_free].
Qed.

(** With a line feed as terminator this writer leaves a carriage return
    alone without quotes, and that reader then breaks the row in two. *)
Lemma carriage_return_unquoted :
  to_csv posix_linesep
         [{| Title := JStr (String "a" (String CR "b")); DOI := JStr "";
             Year := JInt 2020; Authors := "Unknown" |}]
  = Some ("Title,DOI,Year,Authors" ++ String LF ""
          ++ String "a" (String CR "b") ++ ",,2020,Unknown" ++ String LF "")%string
  /\ csv_read true
       ("Title,DOI,Year,Authors" ++ String LF ""
        ++ String "a" (String CR "b") ++ ",,2020,Unknown" ++ String LF "")
     = [["Title"; "DOI"; "Year"; "Authors"]; ["a"];
        ["b"; ""; "2020"; "Unknown"]].
Proof.
  split; reflexivity.
Qed.

(* ================================================================= *)
(** * Further properties of the code *)

(** ** The loop over the items *)

Lemma bind_Raise {A B : Type} (m : result A) (k : A -> result B) (e : exn) :
  bind m k = Raise e ->
  m = Raise e \/ exists a, m = Ok a /\ k a = Raise e.
Proof.
  destruct m as [a | e']; simpl; intros H; [right; eauto | left].
  now inversion H.
Qed.

Lemma for_each_Forall2 {A B : Type} (body : A -> result B) (xs : list A)
      (ys : list B) :
  for_each body xs = Ok ys <-> Forall2 (fun x y => body x = Ok y) xs ys.
Proof.
  revert ys. induction xs as [| x rest IH]; intros ys; simpl.
  - split; intros H; [inversion H; constructor | now inversion H].
  - split; intros H.
    + apply bind_Ok in H as (y & Ey & H).
      apply bind_Ok in H as (ys' & Eys & H).
      inversion H; subst. constructor; [assumption | now apply IH].
    + inversion H as [| ? y ? ys' Ey Hrest]; subst.
      apply IH in Hrest. now rewrite Ey, Hrest.
Qed.

Lemma for_each_Raise {A B : Type} (body : A -> result B) (xs : list A)
      (e : exn) :
  for_each body xs = Raise e <->
  exists before x after ys,
    xs = (before ++ x :: after)%list
    /\ Forall2 (fun x y => body x = Ok y) before ys
    /\ body x = Raise e.
Proof.
  induction xs as [| x rest IH]; simpl.
  - split; [discriminate |].
    intros (before & x & after & ys & E & _). now destruct before.
  - split.
    + intros H. apply bind_Raise in H as [H | (y & Ey & H)].
      * exists [], x, rest, []. repeat split; [constructor | assumption].
      * apply bind_Raise in H as [H | (ys & _ & H)]; [| discriminate].
        apply IH in H as (before & x' & after & ys & E & F & R).
        exists (x :: before), x', after, (y :: ys). subst rest.
        repeat split; [now constructor | assumption].
    + intros (before & x' & after & ys & E & F & R).
      destruct before as [| b before'].
      * simpl in E. inversion E; subst. now rewrite R.
      * simpl in E. inversion E; subst.
        inversion F as [| ? y ? ys' Ey Hrest]; subst. rewrite Ey. simpl.
        assert (for_each body (before' ++ x' :: after) = Raise e) as ->
          by (apply IH; exists before', x', after, ys'; auto).
        reflexivity.
Qed.

(** The frame has one record per item, in the order of the items,
    each the record of its item. *)
Lemma normalize_keeps_order (items : list json) (df : DataFrame) :
  normalize items = Ok df <->
  Forall2 (fun item r => normalize_item item = Ok r) items df.
Proof.
  apply for_each_Forall2.
Qed.


(** X1: the loop raises exactly when some item does, and then with the
    exception of the first such item: no record of the other items is
    kept. *)
Theorem normalize_first_failure (items : list json) (e : exn) :
  normalize items = Raise e <->
  exists before item after records,
    items = (before ++ item :: after)%list
    /\ Forall2 (fun i r => normalize_item i = Ok r) before records
    /\ normalize_item item = Raise e.
Proof.
  apply for_each_Raise.
Qed.

Lemma str_chars_nonempty (s : string) : s <> "" -> str_chars s <> [].
Proof.
  destruct s as [| a rest]; [congruence |]. intros _. simpl.
  destruct (str_chars rest); [discriminate |].
  destruct (starts_with_continuation rest); discriminate.
Qed.

Lemma dict_get_error (v : json) (key : string) (default : json) (e : exn) :
  dict_get v key default = Raise e -> e = AttributeError.
Proof.
  destruct v; simpl; try (intros H; now inversion H).
  destruct (lookup key fields); discriminate.
Qed.

Lemma getitem0_error (v : json) (e : exn) :
  truthy v = true -> getitem0 v = Raise e -> type_error e = true.
Proof.
  destruct v as [| | | | s | [| x l] |]; simpl; intros T H;
    try discriminate; try (now inversion H).
  destruct (String.eqb_spec s ""); [discriminate |].
  destruct (str_chars s) eqn:C; [| discriminate].
  now apply str_chars_nonempty in C.
Qed.

Lemma item_title_error (item : json) (e : exn) :
  item_title item = Raise e -> type_error e = true.
Proof.
  unfold item_title. intros H. apply bind_Raise in H as [H | (t & _ & H)].
  - now rewrite (dict_get_error _ _ _ _ H).
  - destruct (truthy (py_or t (JArr []))) eqn:T; [| discriminate].
    now apply getitem0_error in H.
Qed.

Lemma published_year_error (published : json) (e : exn) :
  published_year published = Raise e -> type_error e = true.
Proof.
  unfold published_year. intros H.
  apply bind_Raise in H as [H | (d & _ & H)].
  - now rewrite (dict_get_error _ _ _ _ H).
  - destruct (truthy (py_or d (JArr [JArr []]))) eqn:T; [| discriminate].
    apply bind_Raise in H as [H | (first & E1 & H)].
    + now apply getitem0_error in H.
    + destruct (truthy first) eqn:T1; [| discriminate].
      apply bind_Raise in H as [H | (first' & E2 & H)].
      * now apply getitem0_error in H.
      * rewrite E1 in E2. inversion E2; subst first'.
        now apply getitem0_error in H.
Qed.

Lemma item_year_error (item : json) (e : exn) :
  item_year item = Raise e -> type_error e = true.
Proof.
  unfold item_year. intros H.
  apply bind_Raise in H as [H | (published & _ & H)].
  - unfold item_published in H.
    apply bind_Raise in H as [H | (p & _ & H)].
    + now rewrite (dict_get_error _ _ _ _ H).
    + destruct (truthy p); [discriminate |].
      apply bind_Raise in H as [H | (o & _ & H)]; [| discriminate].
      now rewrite (dict_get_error _ _ _ _ H).
  - now apply published_year_error in H.
Qed.

Lemma author_full_name_error (author : json) (e : exn) :
  author_full_name author = Raise e -> e = AttributeError.
Proof.
  unfold author_full_name. intros H.
  assert (forall v, str_strip v = Raise e -> e = AttributeError) as S.
  { intros v. destruct v; simpl; intros R; now inversion R. }
  apply bind_Raise in H as [H | (g & _ & H)];
    [now apply dict_get_error in H |].
  apply bind_Raise in H as [H | (given & _ & H)]; [now apply S in H |].
  apply bind_Raise in H as [H | (f & _ & H)];
    [now apply dict_get_error in H |].
  apply bind_Raise in H as [H | (family & _ & H)]; [now apply S in H |].
  discriminate.
Qed.

Lemma item_authors_error (item : json) (e : exn) :
  item_authors item = Raise e -> type_error e = true.
Proof.
  unfold item_authors. intros H.
  apply bind_Raise in H as [H | (authors & _ & H)].
  - now rewrite (dict_get_error _ _ _ _ H).
  - apply bind_Raise in H as [H | (elements & _ & H)].
    + destruct authors; simpl in H; try discriminate; now inversion H.
    + apply bind_Raise in H as [H | (names & _ & H)]; [| discriminate].
      apply for_each_Raise in H as (_ & x & _ & _ & _ & _ & R).
      now rewrite (author_full_name_error _ _ R).
Qed.

Lemma normalize_item_error (item : json) (e : exn) :
  normalize_item item = Raise e -> type_error e = true.
Proof.
  unfold normalize_item. intros H.
  apply bind_Raise in H as [H | (t & _ & H)];
    [now apply item_title_error in H |].
  apply bind_Raise in H as [H | (d & _ & H)].
  { unfold item_doi in H. now rewrite (dict_get_error _ _ _ _ H). }
  apply bind_Raise in H as [H | (y & _ & H)];
    [now apply item_year_error in H |].
  apply bind_Raise in H as [H | (a & _ & H)];
    [now apply item_authors_error in H | discriminate].
Qed.

(** X2: whatever the items are, the loop raises nothing but
    AttributeError, TypeError or KeyError: the tests on [title_list],
    [date_parts] and [date_parts[0]] keep every [[0]] within bounds, so
    there is no IndexError. *)
Theorem normalize_errors (items : list json) (e : exn) :
  normalize items = Raise e ->
  e = AttributeError \/ e = TypeError \/ e = KeyError.
Proof.
  intros H. apply for_each_Raise in H as (_ & item & _ & _ & _ & _ & R).
  apply normalize_item_error in R. destruct e; try discriminate; auto.
Qed.

Lemma normalize_errors_witness :
  normalize [Sample.work; JObj [("title", JObj [("en", JStr "x")])]]
  = Raise KeyError
  /\ (KeyError = AttributeError \/ KeyError = TypeError \/ KeyError = KeyError).
Proof.
  split; [reflexivity |].
  apply (normalize_errors
           [Sample.work; JObj [("title", JObj [("en", JStr "x")])]]).
  reflexivity.
Defined.

(** ** Trimming *)

Lemma str_chars_continued (a : ascii) (rest c : string) (cs : list string) :
  starts_with_continuation rest = true ->
  str_chars rest = c :: cs ->
  str_chars (String a rest) = String a c :: cs.
Proof.
  intros H E. cbn [str_chars]. now rewrite E, H.
Qed.

Lemma str_chars_shape (s : string) :
  forallb whole_char (str_chars s) = true
  /\ forallb opens_char (tl (str_chars s)) = true
  /\ match s with
     | String a _ => exists c cs, str_chars s = String a c :: cs
     | EmptyString => str_chars s = []
     end.
Proof.
  induction s as [| a rest (Hw & Ho & Hh)]; [now repeat split |].
  destruct (starts_with_continuation rest) eqn:K.
  - destruct rest as [| b r]; [discriminate |].
    destruct Hh as (c & cs & E).
    rewrite (str_chars_continued a _ _ _ K E). rewrite E in Hw, Ho.
    cbn [forallb whole_char all_continuation tl] in *.
    simpl in K. rewrite K. repeat split; eauto.
  - rewrite (str_chars_cons a rest K). split; [| split].
    + cbn [forallb whole_char all_continuation]. exact Hw.
    + cbn [tl]. destruct rest as [| b r]; [reflexivity |].
      destruct Hh as (c & cs & E). rewrite E in *.
      cbn [forallb opens_char tl] in *. simpl in K. now rewrite K, Ho.
    + eauto.
Qed.

Lemma chars_cons (a : ascii) (conts text : string) :
  all_continuation conts = true ->
  starts_with_continuation text = false ->
  str_chars (String a (conts ++ text)) = String a conts :: str_chars text.
Proof.
  revert a. induction conts as [| b conts IH]; intros a Hc Ht.
  - now apply str_chars_cons.
  - cbn [all_continuation] in Hc. apply andb_true_iff in Hc as [Hb Hc].
    cbn [append]. apply str_chars_continued; [exact Hb |].
    now apply IH.
Qed.

Lemma concat_opens (cs : list string) :
  forallb opens_char cs = true ->
  starts_with_continuation (concat_str cs) = false.
Proof.
  destruct cs as [| [| a r] rest]; [reflexivity | discriminate |].
  cbn [forallb opens_char]. intros H. apply andb_true_iff in H as [H _].
  simpl. now apply negb_true_iff in H.
Qed.

(** Cutting the text of whole characters gives the characters back. *)
Lemma str_chars_concat (cs : list string) :
  forallb whole_char cs = true ->
  forallb opens_char (tl cs) = true ->
  str_chars (concat_str cs) = cs.
Proof.
  induction cs as [| c rest IH]; [reflexivity |].
  cbn [forallb tl]. intros Hw Ho. apply andb_true_iff in Hw as [Hc Hw].
  destruct c as [| a conts]; [discriminate |].
  change (concat_str (String a conts :: rest))
    with (String a (conts ++ concat_str rest)).
  rewrite chars_cons; [| exact Hc | now apply concat_opens].
  f_equal. apply IH; [exact Hw |].
  destruct rest; [reflexivity |]. cbn [forallb tl] in *.
  now apply andb_true_iff in Ho as [_ Ho].
Qed.

Lemma lstrip_chars_split (cs : list string) :
  exists spaces,
    cs = (spaces ++ lstrip_chars cs)%list
    /\ forallb is_space spaces = true
    /\ match lstrip_chars cs with
       | c :: _ => is_space c = false
       | [] => True
       end.
Proof.
  induction cs as [| c rest (spaces & E & Hs & Hh)].
  - exists []. now repeat split.
  - cbn [lstrip_chars]. destruct (is_space c) eqn:S.
    + exists (c :: spaces). cbn [app forallb].
      rewrite S, Hs, <- E. now repeat split.
    + exists []. now repeat split.
Qed.

Lemma lstrip_chars_fixed (cs : list string) :
  match cs with
  | c :: _ => is_space c = false
  | [] => True
  end ->
  lstrip_chars cs = cs.
Proof.
  destruct cs as [| c rest]; [reflexivity |].
  intros H. cbn [lstrip_chars]. now rewrite H.
Qed.

(** What [strip] keeps is the text between the white space at both
    ends, and it neither starts nor ends with white space. *)
Lemma stripped_split (cs : list string) :
  exists before after,
    cs = (before ++ stripped cs ++ after)%list
    /\ forallb is_space before = true
    /\ forallb is_space after = true
    /\ trimmed (stripped cs).
Proof.
  unfold stripped, trimmed.
  destruct (lstrip_chars_split cs) as (before & E1 & S1 & H1).
  destruct (lstrip_chars_split (rev (lstrip_chars cs))) as (after & E2 & S2 & H2).
  set (m := lstrip_chars cs) in *.
  set (k := lstrip_chars (rev m)) in *.
  assert (m = (rev k ++ rev after)%list) as Em.
  { rewrite <- (rev_involutive m), E2. now rewrite rev_app_distr. }
  exists before, (rev after). repeat split.
  - now rewrite <- Em.
  - exact S1.
  - rewrite forallb_forall in *. intros x Hx. apply S2. now apply in_rev.
  - destruct (rev k) as [| c rest] eqn:R; [exact I |].
    rewrite Em in H1. exact H1.
  - now rewrite rev_involutive.
Qed.

Lemma stripped_fixed (cs : list string) :
  trimmed cs -> stripped cs = cs.
Proof.
  intros [Hh Hl]. unfold stripped.
  rewrite (lstrip_chars_fixed cs Hh), (lstrip_chars_fixed (rev cs) Hl).
  apply rev_involutive.
Qed.

Lemma forallb_tl_app_l {A : Type} (p : A -> bool) (l1 l2 : list A) :
  forallb p (tl (l1 ++ l2)) = true -> forallb p (tl l1) = true.
Proof.
  destruct l1 as [| x l1]; [reflexivity |]. cbn [app tl].
  rewrite forallb_app. intros H. now apply andb_true_iff in H as [H _].
Qed.

Lemma forallb_tl_app_r {A : Type} (p : A -> bool) (l1 l2 : list A) :
  forallb p (tl (l1 ++ l2)) = true -> forallb p (tl l2) = true.
Proof.
  destruct l1 as [| x l1]; [trivial |]. cbn [app tl].
  rewrite forallb_app. intros H. apply andb_true_iff in H as [_ H].
  destruct l2; [reflexivity |]. cbn [forallb tl] in *.
  now apply andb_true_iff in H as [_ H].
Qed.

Lemma str_chars_strip (s : string) :
  str_chars (strip s) = stripped (str_chars s).
Proof.
  destruct (str_chars_shape s) as (Hw & Ho & _).
  destruct (stripped_split (str_chars s)) as (before & after & E & _).
  change (strip s) with (concat_str (stripped (str_chars s))).
  rewrite E in Hw, Ho.
  apply str_chars_concat.
  - rewrite !forallb_app in Hw.
    apply andb_true_iff in Hw as [_ Hw]. now apply andb_true_iff in Hw as [Hw _].
  - apply forallb_tl_app_r in Ho. now apply forallb_tl_app_l in Ho.
Qed.

Lemma strip_ends (s : string) : trimmed (str_chars (strip s)).
Proof.
  destruct (stripped_split (str_chars s)) as (_ & _ & _ & _ & _ & T).
  now rewrite str_chars_strip.
Qed.

Lemma strip_strip (s : string) : strip (strip s) = strip s.
Proof.
  change (strip (strip s))
    with (concat_str (stripped (str_chars (strip s)))).
  rewrite (stripped_fixed _ (strip_ends s)), str_chars_strip. reflexivity.
Qed.

(** Trimming is idempotent and leaves a text that neither starts nor
    ends with white space. *)
Lemma strip_trimmed (s : string) :
  strip (strip s) = strip s /\ trimmed (str_chars (strip s)).
Proof.
  split; [apply strip_strip | apply strip_ends].
Qed.

Lemma concat_str_empty (cs : list string) :
  forallb whole_char cs = true -> concat_str cs = "" -> cs = [].
Proof.
  destruct cs as [| [| a r] rest]; [reflexivity | discriminate | discriminate].
Qed.

Lemma lstrip_chars_spaces (cs : list string) :
  lstrip_chars cs = [] <-> forallb is_space cs = true.
Proof.
  induction cs as [| c rest IH]; [now split |].
  cbn [lstrip_chars forallb]. destruct (is_space c); [exact IH |].
  split; discriminate.
Qed.

Lemma strip_blank (s : string) :
  strip s = "" <-> forallb is_space (str_chars s) = true.
Proof.
  split.
  - intros H.
    destruct (str_chars_shape s) as (Hw & _ & _).
    destruct (stripped_split (str_chars s)) as (before & after & E & Sb & Sa & _).
    assert (stripped (str_chars s) = []) as K.
    { apply concat_str_empty; [| exact H].
      rewrite E, !forallb_app in Hw.
      apply andb_true_iff in Hw as [_ Hw].
      now apply andb_true_iff in Hw as [Hw _]. }
    rewrite E, K, !forallb_app, Sb, Sa. reflexivity.
  - intros H. apply lstrip_chars_spaces in H.
    unfold strip. now rewrite H.
Qed.

(** ** Building the frame *)

Lemma float_of_int_error (n : Z) (e : exn) :
  float_of_int n = Raise e -> e = OverflowError.
Proof.
  unfold float_of_int.
  destruct (nearest_float n); intros H; try discriminate; now inversion H.
Qed.

Lemma scan_error (column : list json) (st : seen) (e : exn) :
  scan st column = Raise e -> e = OverflowError.
Proof.
  revert st. induction column as [| val rest IH]; intros st; cbn [scan];
    [discriminate |].
  destruct val as [| b | n | f | s | l | o]; try apply IH; try discriminate.
  - intros H. apply bind_Raise in H as [H | (f & _ & H)];
      [now apply float_of_int_error in H |].
    cbv zeta in H. destruct (null_ st); [now apply IH in H |].
    destruct ((uint_ st || (INT64_MAX <? n) && (n <=? UINT64_MAX))
              && (sint_ st || (INT64_MIN <=? n) && (n <? 0))
              || (UINT64_MAX <? n) || (n <? INT64_MIN));
      [discriminate | now apply IH in H].
  - destruct (is_nan f); apply IH.
Qed.

Lemma convert_column_error (column : list json) (e : exn) :
  convert_column column = Raise e -> e = OverflowError.
Proof.
  unfold convert_column. intros H.
  apply bind_Raise in H as [H | (st & _ & H)]; [| discriminate].
  now apply scan_error in H.
Qed.

Lemma from_records_error (records : list record) (e : exn) :
  from_records records = Raise e -> e = OverflowError.
Proof.
  unfold from_records. intros H.
  apply bind_Raise in H as [H | (titles & _ & H)];
    [now apply convert_column_error in H |].
  apply bind_Raise in H as [H | (dois & _ & H)];
    [now apply convert_column_error in H |].
  apply bind_Raise in H as [H | (years & _ & H)];
    [now apply convert_column_error in H | discriminate].
Qed.




(** ** The search client *)

Lemma fetch_crossref_results_body (get : world) (keyword : string) (rows : Z)
      (status_code : Z) (data : json) :
  get (crossref_request keyword rows) = Reply status_code (Json data) ->
  ~ 400 <= status_code < 600 ->
  fetch_crossref_results get keyword rows
  = (message <- dict_get data "message" (JObj []) ;;
     items <- dict_get message "items" (JArr []) ;;
     elements <- py_iter items ;;
     records <- normalize elements ;;
     from_records records).
Proof.
  intros G S. unfold fetch_crossref_results. rewrite G.
  destruct (raise_for_status_cases status_code) as [[S' _] | [_ ->]];
    [contradiction | reflexivity].
Qed.

Lemma fetch_error_cases (get : world) (keyword : string)
        (rows : Z) (e : exn) :
  fetch_crossref_results get keyword rows = Raise e ->
  (get (crossref_request keyword rows) = NoReply /\ e = ConnectionError)
  \/ (exists status_code content,
         get (crossref_request keyword rows) = Reply status_code content
         /\ 400 <= status_code < 600 /\ e = HTTPError status_code)
  \/ (exists status_code content,
         get (crossref_request keyword rows) = Reply status_code content
         /\ ~ 400 <= status_code < 600
         /\ ((content = NotJson /\ e = JSONDecodeError)
             \/ (content = IntegerTooLong /\ e = ValueError)
             \/ (content = NestedTooDeep /\ e = RecursionError)
             \/ (exists data,
                    content = Json data
                    /\ (type_error e = true \/ e = OverflowError)))).
Proof.
  intros H.
  destruct (get (crossref_request keyword rows))
    as [| status_code content] eqn:G.
  - left. unfold fetch_crossref_results in H. rewrite G in H.
    split; [reflexivity | now inversion H].
  - right.
    destruct (raise_for_status_cases status_code) as [[S R] | [S R]].
    + left. exists status_code, content. repeat split; try assumption; try lia.
      unfold fetch_crossref_results in H. rewrite G, R in H. now inversion H.
    + right. exists status_code, content.
      split; [reflexivity |]. split; [assumption |].
      destruct content as [data | | |].
      * right. right. right. exists data. split; [reflexivity |].
        rewrite (fetch_crossref_results_body _ _ _ _ _ G S) in H.
        apply bind_Raise in H as [H | (message & _ & H)];
          [left; now rewrite (dict_get_error _ _ _ _ H) |].
        apply bind_Raise in H as [H | (items & _ & H)];
          [left; now rewrite (dict_get_error _ _ _ _ H) |].
        apply bind_Raise in H as [H | (elements & _ & H)].
        -- left. destruct items; simpl in H; try discriminate; now inversion H.
        -- apply bind_Raise in H as [H | (records & _ & H)].
           ++ left.
              apply for_each_Raise in H as (_ & item & _ & _ & _ & _ & R').
              now apply normalize_item_error in R'.
           ++ right. now apply from_records_error in H.
      * left. split; [reflexivity |].
        unfold fetch_crossref_results in H. rewrite G, R in H.
        now inversion H.
      * right. left. split; [reflexivity |].
        unfold fetch_crossref_results in H. rewrite G, R in H.
        now inversion H.
      * right. right. left. split; [reflexivity |].
        unfold fetch_crossref_results in H. rewrite G, R in H.
        now inversion H.
Qed.

(** X4: every exception of the client has one of seven causes: no
    reply came (ConnectionError); the reply has a status from 400 to
    599 (HTTPError, carrying that status); the reply has another status
    and a body that is no JSON document (JSONDecodeError), a document
    with an integer too long to convert (ValueError), a document nested
    too deep (RecursionError), a decoded value of unexpected shape
    (AttributeError, TypeError or KeyError), or records with an integer
    that no float can hold (OverflowError). *)
Theorem fetch_crossref_results_errors (get : world) (keyword : string)
        (rows : Z) (e : exn) :
  fetch_crossref_results get keyword rows = Raise e ->
  (get (crossref_request keyword rows) = NoReply /\ e = ConnectionError)
  \/ (exists status_code content,
         get (crossref_request keyword rows) = Reply status_code content
         /\ 400 <= status_code < 600 /\ e = HTTPError status_code)
  \/ (exists status_code content,
         get (crossref_request keyword rows) = Reply status_code content
         /\ ~ 400 <= status_code < 600
         /\ ((content = NotJson /\ e = JSONDecodeError)
             \/ (content = IntegerTooLong /\ e = ValueError)
             \/ (content = NestedTooDeep /\ e = RecursionError)
             \/ (exists data,
                    content = Json data
                    /\ (type_error e = true \/ e = OverflowError)))).
Proof.
  exact (fetch_error_cases get keyword rows e).
Qed.

Lemma fetch_crossref_results_errors_witness :
  fetch_crossref_results (fun _ => Reply 200 IntegerTooLong) "logic" 10
  = Raise ValueError
  /\ exists status_code content,
       Reply 200 IntegerTooLong = Reply status_code content
       /\ ~ 400 <= status_code < 600
       /\ content = IntegerTooLong.
Proof.
  split; [reflexivity |].
  destruct (fetch_crossref_results_errors (fun _ => Reply 200 IntegerTooLong)
              "logic" 10 ValueError eq_refl)
    as [[D _] | [(s & c & _ & _ & D) | (s & c & G & S & D)]];
    [discriminate | discriminate |].
  exists s, c. split; [exact G |]. split; [exact S |].
  destruct D as [[_ D] | [[D _] | [[_ D] | (d & _ & [D | D])]]];
    [discriminate | exact D | discriminate | discriminate | discriminate].
Defined.

(** X5: a JSON object without message, or whose message has no items,
    gives the empty frame and no error. *)
Theorem fetch_crossref_results_no_items (get : world) (keyword : string)
        (rows : Z) (status_code : Z) (data : list (string * json)) :
  get (crossref_request keyword rows) = Reply status_code (Json (JObj data)) ->
  ~ 400 <= status_code < 600 ->
  lookup "message" data = None
  \/ (exists message,
         lookup "message" data = Some (JObj message)
         /\ lookup "items" message = None) ->
  fetch_crossref_results get keyword rows = Ok [].
Proof.
  intros G S H. rewrite (fetch_crossref_results_body _ _ _ _ _ G S).
  unfold dict_get at 1.
  destruct H as [-> | (message & -> & I)]; simpl; [reflexivity |].
  now rewrite I.
Qed.

Lemma fetch_crossref_results_no_items_witness :
  fetch_crossref_results (fun _ => Reply 200 (Json (JObj [("status", JStr "ok")])))
                         "logic" 10 = Ok []
  /\ fetch_crossref_results
       (fun _ => Reply 200 (Json (JObj [("message", JObj [("total", JInt 0)])])))
       "logic" 10 = Ok [].
Proof.
  split.
  - apply (fetch_crossref_results_no_items _ "logic" 10 200
             [("status", JStr "ok")] eq_refl); [lia | now left].
  - apply (fetch_crossref_results_no_items _ "logic" 10 200
             [("message", JObj [("total", JInt 0)])] eq_refl); [lia |].
    right. exists [("total", JInt 0)]. split; reflexivity.
Defined.



(** ** The search view *)

Lemma form_keyword_strip (req : request) :
  form_keyword req
  = match lookup "keyword" (form req) with
    | Some keyword => strip keyword
    | None => ""
    end.
Proof.
  unfold form_keyword, or_str.
  destruct (lookup "keyword" (form req)) as [k |]; [| reflexivity].
  now destruct (String.eqb_spec k "") as [-> | N].
Qed.

Lemma index_calls (get : world) (req : request) (g : cache) :
  method req = POST -> form_keyword req <> "" ->
  upstream_calls (index get req g)
  = [crossref_request (form_keyword req) (form_rows req)].
Proof.
  intros M K. rewrite (index_search get req g M K). cbv zeta.
  destruct (fetch_crossref_results _ _ _) as [df | e].
  - destruct (empty df); reflexivity.
  - destruct e; reflexivity.
Qed.

(** X3: a search whose keyword field is missing or holds white space
    only is answered by the validation message without any call to
    Crossref; any other keyword is sent, trimmed, in exactly one
    call. *)
Theorem index_keyword_validation (get : world) (req : request) (g : cache) :
  method req = POST ->
  match lookup "keyword" (form req) with
  | None =>
      index get req g
      = {| globals := g;
           flashed := ["Please enter a research topic keyword."];
           upstream_calls := [];
           result_of := Returns (redirect url_for_index) |}
  | Some keyword =>
      if forallb is_space (str_chars keyword) then
        index get req g
        = {| globals := g;
             flashed := ["Please enter a research topic keyword."];
             upstream_calls := [];
             result_of := Returns (redirect url_for_index) |}
      else
        upstream_calls (index get req g)
        = [crossref_request (strip keyword) (form_rows req)]
        /\ strip keyword <> ""
  end.
Proof.
  intros M. pose proof (form_keyword_strip req) as K.
  destruct (lookup "keyword" (form req)) as [keyword |].
  - destruct (forallb is_space (str_chars keyword)) eqn:B.
    + apply index_no_keyword; [exact M |]. rewrite K. now apply strip_blank.
    + assert (strip keyword <> "") as N.
      { intros E. apply strip_blank in E. congruence. }
      split; [| exact N]. rewrite <- K. apply index_calls; congruence.
  - now apply index_no_keyword.
Qed.

Lemma index_keyword_validation_witness :
  upstream_calls (index (Sample.answers []) (Sample.search "  graph  theory " "7")
                        initial_cache)
  = [crossref_request "graph  theory" 7]
  /\ upstream_calls (index (Sample.answers [])
                           (Sample.search (String (Ascii.ascii_of_nat 9) " ") "7")
                           initial_cache) = [].
Proof.
  split.
  - exact (proj1 (index_keyword_validation (Sample.answers [])
                    (Sample.search "  graph  theory " "7") initial_cache
                    eq_refl)).
  - now rewrite (index_keyword_validation (Sample.answers [])
                   (Sample.search (String (Ascii.ascii_of_nat 9) " ") "7")
                   initial_cache eq_refl).
Defined.

Lemma serve_calls (linesep : string) (get : world) (r : route) (g : cache) :
  upstream_calls (serve linesep get r g) = []
  \/ exists req,
       r = Index req /\ method req = POST /\ form_keyword req <> ""
       /\ upstream_calls (serve linesep get r g)
          = [crossref_request (form_keyword req) (form_rows req)].
Proof.
  destruct r as [req |]; simpl.
  - destruct (method req) eqn:M;
      try (left; unfold index; rewrite M; reflexivity).
    destruct (String.eqb_spec (form_keyword req) "") as [K | K].
    + left. now rewrite index_no_keyword.
    + right. exists req. repeat split; try assumption.
      now apply index_calls.
  - left. unfold download_csv.
    destruct (_latest_results_df g) as [df |]; [| reflexivity].
    destruct (empty df); reflexivity.
Qed.

(** X7: a request makes at most one call to Crossref, and only a POST
    with a keyword makes one; every call goes to the works endpoint with
    the filter from-pub-date:2015 and a timeout of 10, asks for 1 to 100
    rows, and carries a query that is not empty and is trimmed: trimming
    it again changes nothing and it neither starts nor ends with white
    space. *)
Theorem upstream_call_shape (linesep : string) (get : world) (r : route)
        (g : cache) :
  (length (upstream_calls (serve linesep get r g)) <= 1)%nat
  /\ forall call,
       In call (upstream_calls (serve linesep get r g)) ->
       url call = "https://api.crossref.org/works"
       /\ param_filter call = "from-pub-date:2015"
       /\ timeout call = 10
       /\ 1 <= param_rows call <= 100
       /\ param_query call <> ""
       /\ strip (param_query call) = param_query call
       /\ trimmed (str_chars (param_query call))
       /\ exists req, r = Index req /\ method req = POST.
Proof.
  destruct (serve_calls linesep get r g) as [E | (req & -> & M & K & E)];
    rewrite E; simpl.
  - split; [lia | contradiction].
  - split; [lia |]. intros call [<- | []]. cbn [crossref_request url
      param_filter timeout param_rows param_query].
    split; [reflexivity |]. split; [reflexivity |]. split; [reflexivity |].
    split; [apply parse_rows_range |]. split; [assumption |].
    split; [unfold form_keyword; apply strip_strip |].
    split; [unfold form_keyword; apply strip_ends | eauto].
Qed.

Lemma upstream_call_shape_witness :
  In (crossref_request "graph  theory" 100)
     (upstream_calls (serve posix_linesep (Sample.answers [])
                            (Index (Sample.search "  graph  theory " "250"))
                            initial_cache))
  /\ strip "graph  theory" = "graph  theory".
Proof.
  split; [now left |].
  apply (proj2 (upstream_call_shape posix_linesep (Sample.answers [])
                  (Index (Sample.search "  graph  theory " "250"))
                  initial_cache)
               (crossref_request "graph  theory" 100) (or_introl eq_refl)).
Defined.

Lemma index_found (get : world) (req : request) (g : cache) (df : DataFrame) :
  method req = POST ->
  form_keyword req <> "" ->
  fetch_crossref_results get (form_keyword req) (form_rows req) = Ok df ->
  df <> [] ->
  index get req g
  = {| globals := {| _latest_results_df := Some df;
                     _latest_query := Some (form_keyword req) |};
       flashed := [];
       upstream_calls := [crossref_request (form_keyword req) (form_rows req)];
       result_of :=
         Returns (render_template "index.html" (Some df)
                                  (form_keyword req) (form_rows req)) |}.
Proof.
  intros M K F N. rewrite (index_search get req g M K). cbv zeta.
  rewrite F. destruct df; [contradiction |]. cbn [empty].
  now rewrite render_index_new.
Qed.

Lemma index_result_cases (get : world) (req : request) (g : cache) (e : exn) :
  result_of (index get req g) = Propagates e ->
  method req = POST /\ form_keyword req <> ""
  /\ fetch_crossref_results get (form_keyword req) (form_rows req) = Raise e
  /\ is_RequestException e = false
  /\ index get req g
     = {| globals := g; flashed := [];
          upstream_calls :=
            [crossref_request (form_keyword req) (form_rows req)];
          result_of := Propagates e |}.
Proof.
  destruct (method req) eqn:M;
    try (unfold index; rewrite M; discriminate).
  destruct (String.eqb_spec (form_keyword req) "") as [K | K].
  - rewrite index_no_keyword by assumption. discriminate.
  - rewrite (index_search get req g M K). cbv zeta.
    destruct (fetch_crossref_results _ _ _) as [df | e'] eqn:F.
    + destruct (empty df); discriminate.
    + destruct e'; simpl; try discriminate;
        intros H; inversion H; subst; repeat split; auto.
Qed.

(** X8: the view catches every RequestException of the client (HTTP
    errors, transport failures, a body that is no JSON document).  The
    exceptions that it lets through are the ValueError and the
    RecursionError of [response.json()], the AttributeError, TypeError
    and KeyError raised on a decoded value of unexpected shape, and the
    OverflowError of [from_records], each on a reply whose status is
    outside 400..599.  When one goes through, nothing is flashed and
    the cache is as it was. *)
Theorem index_lets_through (get : world) (req : request) (g : cache)
        (e : exn) :
  result_of (index get req g) = Propagates e ->
  is_RequestException e = false
  /\ (exists status_code content,
         get (crossref_request (form_keyword req) (form_rows req))
         = Reply status_code content
         /\ ~ 400 <= status_code < 600
         /\ ((content = IntegerTooLong /\ e = ValueError)
             \/ (content = NestedTooDeep /\ e = RecursionError)
             \/ (exists data,
                    content = Json data
                    /\ (e = AttributeError \/ e = TypeError
                        \/ e = KeyError \/ e = OverflowError))))
  /\ flashed (index get req g) = []
  /\ globals (index get req g) = g.
Proof.
  intros H. destruct (index_result_cases get req g e H) as (M & K & F & R & E).
  rewrite E. simpl. split; [exact R |]. split; [| auto].
  destruct (fetch_error_cases _ _ _ _ F)
    as [[_ ->] | [(s & c & _ & _ & ->) | (s & c & G & S & D)]];
    try discriminate.
  exists s, c. split; [exact G |]. split; [exact S |].
  destruct D as [[_ ->] | [D | [D | (d & -> & T)]]];
    [discriminate | now left | right; now left |].
  right. right. exists d. split; [reflexivity |].
  destruct T as [T | ->]; [| auto].
  destruct e; try discriminate; auto.
Qed.

Lemma index_lets_through_witness :
  result_of (index (fun _ => Reply 200 (Json (JArr []))) (Sample.search "logic" "10")
                   Sample.loaded_cache) = Propagates AttributeError
  /\ result_of (index (fun _ => Reply 200 NestedTooDeep)
                      (Sample.search "logic" "10") Sample.loaded_cache)
     = Propagates RecursionError
  /\ globals (index (fun _ => Reply 200 NestedTooDeep)
                    (Sample.search "logic" "10") Sample.loaded_cache)
     = Sample.loaded_cache.
Proof.
  split; [reflexivity |]. split; [reflexivity |].
  apply (index_lets_through (fun _ => Reply 200 NestedTooDeep)
           (Sample.search "logic" "10") Sample.loaded_cache RecursionError).
  reflexivity.
Defined.

(** ** A search that finds records, and what follows it *)

(** X9: a search that finds records flashes nothing, stores them with
    the trimmed keyword whatever the cache held, and renders them with
    that keyword and the rows value used. *)
Theorem index_stores_and_renders (get : world) (req : request) (g : cache)
        (df : DataFrame) :
  method req = POST ->
  form_keyword req <> "" ->
  fetch_crossref_results get (form_keyword req) (form_rows req) = Ok df ->
  df <> [] ->
  index get req g
  = {| globals := {| _latest_results_df := Some df;
                     _latest_query := Some (form_keyword req) |};
       flashed := [];
       upstream_calls := [crossref_request (form_keyword req) (form_rows req)];
       result_of :=
         Returns (render_template "index.html" (Some df)
                                  (form_keyword req) (form_rows req)) |}.
Proof.
  exact (index_found get req g df).
Qed.

Lemma index_stores_and_renders_witness :
  index (Sample.answers [Sample.work]) (Sample.search " quantum " "5")
        Sample.loaded_cache
  = {| globals := {| _latest_results_df := Some [Sample.work_record];
                     _latest_query := Some "quantum" |};
       flashed := [];
       upstream_calls := [crossref_request "quantum" 5];
       result_of :=
         Returns (render_template "index.html" (Some [Sample.work_record])
                                  "quantum" 5) |}.
Proof.
  apply (index_stores_and_renders (Sample.answers [Sample.work])
           (Sample.search " quantum " "5") Sample.loaded_cache
           [Sample.work_record]);
    [reflexivity | discriminate | reflexivity | discriminate].
Defined.

Lemma index_get (get : world) (req : request) (g : cache) :
  method req <> POST ->
  index get req g
  = {| globals := g; flashed := []; upstream_calls := [];
       result_of :=
         Returns (render_template "index.html" (_latest_results_df g)
                    (or_str (_latest_query g) "") 10) |}.
Proof.
  intros M. unfold index. destruct (method req); [| | contradiction];
    reflexivity.
Qed.

(** X10: after a search that found records, loading the page again
    shows those records and that keyword, with rows back to 10, and
    calls nothing. *)
Theorem search_then_get (get get' : world) (req req' : request) (g : cache)
        (df : DataFrame) :
  method req = POST ->
  form_keyword req <> "" ->
  fetch_crossref_results get (form_keyword req) (form_rows req) = Ok df ->
  df <> [] ->
  method req' <> POST ->
  index get' req' (globals (index get req g))
  = {| globals := {| _latest_results_df := Some df;
                     _latest_query := Some (form_keyword req) |};
       flashed := [];
       upstream_calls := [];
       result_of :=
         Returns (render_template "index.html" (Some df)
                                  (form_keyword req) 10) |}.
Proof.
  intros M K F N M'. rewrite (index_found get req g df M K F N).
  rewrite index_get by assumption. cbn [globals _latest_results_df _latest_query].
  unfold or_str. now destruct (String.eqb_spec (form_keyword req) "").
Qed.

Lemma search_then_get_witness :
  index (fun _ => NoReply) {| method := GET; form := [] |}
        (globals (index (Sample.answers [Sample.work])
                        (Sample.search " quantum " "5") initial_cache))
  = {| globals := {| _latest_results_df := Some [Sample.work_record];
                     _latest_query := Some "quantum" |};
       flashed := [];
       upstream_calls := [];
       result_of :=
         Returns (render_template "index.html" (Some [Sample.work_record])
                                  "quantum" 10) |}.
Proof.
  apply (search_then_get (Sample.answers [Sample.work]) (fun _ => NoReply)
           (Sample.search " quantum " "5") {| method := GET; form := [] |}
           initial_cache [Sample.work_record]);
    [reflexivity | discriminate | reflexivity | discriminate | discriminate].
Defined.

(** X11: after a search that found records of the data model, the
    download raises UnicodeEncodeError when a text found holds a
    surrogate; when none does, it sends a CSV text that [csv.reader]
    reads back as the header and one row per record found, in their
    order and with their values, provided the line terminator has a
    carriage return or no text found holds one. *)
Theorem search_then_download (linesep : string) (get : world) (req : request)
        (g : cache) (df : DataFrame) :
  platform_linesep linesep ->
  method req = POST ->
  form_keyword req <> "" ->
  fetch_crossref_results get (form_keyword req) (form_rows req) = Ok df ->
  df <> [] ->
  forallb data_model_record df = true ->
  (frame_has_surrogate df = true ->
   result_of (download_csv linesep (globals (index get req g)))
   = Propagates UnicodeEncodeError)
  /\ (frame_has_surrogate df = false ->
      linesep = windows_linesep \/ frame_holds CR df = false ->
      exists text rows,
        result_of (download_csv linesep (globals (index get req g)))
        = Returns (send_file (Some text) "text/csv" true "crossref_results.csv")
        /\ encode_utf8 text = Ok text
        /\ csv_read true text = columns :: rows
        /\ Forall2 same_values df rows).
Proof.
  intros P M K F N D. rewrite (index_found get req g df M K F N).
  cbn [globals]. split.
  - intros S.
    now rewrite (download_csv_raises linesep
                   (mk_cache (Some df) (Some (form_keyword req))) df
                   eq_refl N S).
  - intros S C.
    destruct (data_model_frame df D) as (rows & Fc & V).
    pose proof (to_csv_text linesep df rows Fc) as T.
    exists (csv_row linesep columns
            ++ concat_str (map (csv_row linesep) rows))%string, rows.
    split; [| split; [| split]].
    + rewrite (download_csv_sends linesep
                 (mk_cache (Some df) (Some (form_keyword req))) df
                 eq_refl N S).
      cbn [result_of]. now rewrite T.
    + unfold encode_utf8.
      now rewrite (to_csv_surrogate linesep df _ P T), S.
    + apply read_to_csv; [assumption | auto |].
      apply all_read_back_universal. destruct C as [C | C]; [now left |].
      right.
      now rewrite (frame_cells_free CR df rows eq_refl Fc), C.
    + exact V.
Qed.

Lemma search_then_download_witness :
  (exists text rows,
      result_of (download_csv posix_linesep
                   (globals (index (Sample.answers [Sample.work])
                                   (Sample.search " quantum " "5")
                                   initial_cache)))
      = Returns (send_file (Some text) "text/csv" true "crossref_results.csv")
      /\ encode_utf8 text = Ok text
      /\ csv_read true text = columns :: rows
      /\ Forall2 same_values [Sample.work_record] rows)
  /\ result_of (download_csv posix_linesep
                  (globals (index (Sample.answers
                                     [JObj [("title",
                                             JArr [JStr Sample.lone_surrogate])]])
                                  (Sample.search "logic" "10")
                                  initial_cache)))
     = Propagates UnicodeEncodeError.
Proof.
  split.
  - apply (proj2 (search_then_download posix_linesep
                    (Sample.answers [Sample.work])
                    (Sample.search " quantum " "5") initial_cache
                    [Sample.work_record] (or_introl eq_refl) eq_refl
                    ltac:(discriminate) eq_refl ltac:(discriminate) eq_refl));
      [reflexivity | now right].
  - apply (proj1 (search_then_download posix_linesep
                    (Sample.answers
                       [JObj [("title", JArr [JStr Sample.lone_surrogate])]])
                    (Sample.search "logic" "10") initial_cache
                    [Sample.surrogate_record] (or_introl eq_refl) eq_refl
                    ltac:(discriminate) eq_refl ltac:(discriminate) eq_refl)).
    reflexivity.
Defined.

(** ** The cache over a sequence of requests *)

(** X12: whatever requests have been served since the start, the cache
    is empty or holds a frame with at least one record and a keyword
    that is not empty.  So the download view redirects exactly when
    nothing was cached; otherwise it sends the cached frame as a file,
    or raises UnicodeEncodeError when a cached text holds a
    surrogate. *)
Theorem reachable_cache (linesep : string) (history : list (world * route)) :
  (_latest_results_df (run linesep initial_cache history) = None
   /\ _latest_query (run linesep initial_cache history) = None
   /\ result_of (download_csv linesep (run linesep initial_cache history))
      = Returns (redirect url_for_index))
  \/ exists df keyword,
       df <> [] /\ keyword <> ""
       /\ run linesep initial_cache history
          = {| _latest_results_df := Some df; _latest_query := Some keyword |}
       /\ result_of (download_csv linesep (run linesep initial_cache history))
          = if frame_has_surrogate df
            then Propagates UnicodeEncodeError
            else Returns (send_file (to_csv linesep df) "text/csv" true
                                    "crossref_results.csv").
Proof.
  destruct (run_cache_invariant linesep history initial_cache)
    as [[E1 E2] | (df & keyword & N & K & E)].
  - left. now split.
  - left. repeat split; try assumption.
    unfold download_csv. now rewrite E1.
  - right. exists df, keyword. repeat split; try assumption.
    rewrite E. destruct (frame_has_surrogate df) eqn:S.
    + now rewrite (download_csv_raises linesep
                     (mk_cache (Some df) (Some keyword)) df eq_refl N S).
    + now rewrite (download_csv_sends linesep
                     (mk_cache (Some df) (Some keyword)) df eq_refl N S).
Qed.

Lemma run_app (linesep : string) (g : cache) (h1 h2 : list (world * route)) :
  run linesep g (h1 ++ h2) = run linesep (run linesep g h1) h2.
Proof.
  revert g. induction h1 as [| [get r] h1 IH]; intros g; [reflexivity |].
  simpl. apply IH.
Qed.

Lemma run_stays_loaded (linesep : string) (history : list (world * route))
      (g : cache) :
  _latest_results_df g <> None ->
  _latest_results_df (run linesep g history) <> None.
Proof.
  revert g. induction history as [| [get r] rest IH]; intros g H;
    [exact H |].
  simpl. apply IH.
  destruct (serve_globals linesep get r g)
    as [E | (req & df & _ & _ & _ & _ & _ & E)]; rewrite E;
    [exact H | discriminate].
Qed.

(** X13: no request empties the cache: once it holds a frame and a
    keyword, it holds a frame and a keyword after any sequence of
    requests, whatever the replies of Crossref. *)
Theorem cache_never_cleared (linesep : string)
        (history : list (world * route)) (df : DataFrame) (keyword : string) :
  exists df' keyword',
    run linesep {| _latest_results_df := Some df;
                   _latest_query := Some keyword |} history
    = {| _latest_results_df := Some df'; _latest_query := Some keyword' |}.
Proof.
  revert df keyword.
  induction history as [| [get r] rest IH]; intros df keyword.
  - exists df, keyword. reflexivity.
  - cbn [run].
    destruct (serve_globals linesep get r
                {| _latest_results_df := Some df;
                   _latest_query := Some keyword |})
      as [E | (req & df' & _ & _ & _ & _ & _ & E)]; rewrite E; apply IH.
Qed.

(** ** The rows field *)

(** X14: a rows field that holds the decimal writing of an integer is
    used as that integer brought into 1 to 100. *)
Theorem parse_rows_decimal (n : Z) :
  (digits_of n <= int_max_str_digits)%nat ->
  parse_rows (str_of_int n) = Z.max 1 (Z.min 100 n)
  /\ (1 <= n <= 100 -> parse_rows (str_of_int n) = n).
Proof.
  intros L. unfold parse_rows. rewrite (py_int_str_of_int n L).
  split; [reflexivity | lia].
Qed.

Lemma parse_rows_decimal_witness :
  parse_rows "37" = 37 /\ parse_rows "-4" = 1 /\ parse_rows "2500" = 100.
Proof.
  split; [| split].
  - exact (proj2 (parse_rows_decimal 37 ltac:(vm_compute; lia)) ltac:(lia)).
  - exact (proj1 (parse_rows_decimal (-4) ltac:(vm_compute; lia))).
  - exact (proj1 (parse_rows_decimal 2500 ltac:(vm_compute; lia))).
Defined.

(** ** Items typed as Crossref types them *)

Lemma typed_title_Ok (fields : list (string * json)) :
  absent_or typed_title (lookup "title" fields) = true ->
  exists t, item_title (JObj fields) = Ok (JStr t).
Proof.
  unfold item_title, dict_get. intros H.
  destruct (lookup "title" fields) as [v |]; simpl in *.
  - destruct v as [| | | | | [| [] l] |]; try discriminate; simpl; eauto.
  - eauto.
Qed.

Lemma typed_doi_Ok (fields : list (string * json)) :
  absent_or is_str (lookup "DOI" fields) = true ->
  exists d, item_doi (JObj fields) = Ok (JStr d).
Proof.
  unfold item_doi, dict_get. intros H.
  destruct (lookup "DOI" fields) as [v |]; simpl in *.
  - destruct v; try discriminate; eauto.
  - eauto.
Qed.

Lemma typed_published_year (published : json) :
  typed_published published = true -> published <> JNull ->
  exists y,
    published_year published = Ok y
    /\ (y = JStr em_dash \/ is_year y = true).
Proof.
  destruct published as [| | | | | | f]; try discriminate; [congruence |].
  unfold published_year. simpl. intros H _.
  destruct (lookup "date-parts" f) as [v |]; simpl in *.
  - destruct v as [| | | | | [| [| | | | | [| y ys] |] rest] |];
      try discriminate; simpl; eauto.
  - eauto.
Qed.

Lemma typed_year_Ok (fields : list (string * json)) :
  absent_or typed_published (lookup "published-print" fields) = true ->
  absent_or typed_published (lookup "published-online" fields) = true ->
  exists y,
    item_year (JObj fields) = Ok y
    /\ (y = JStr em_dash \/ is_year y = true).
Proof.
  intros Hp Ho. unfold item_year.
  destruct (item_published_cases fields)
    as [(p & Ep & Tp & ->) | (_ & [(o & Eo & To & ->) | (_ & ->)])]; simpl.
  - rewrite Ep in Hp. apply typed_published_year; [exact Hp |].
    intros ->. discriminate.
  - rewrite Eo in Ho. apply typed_published_year; [exact Ho |].
    intros ->. discriminate.
  - exists (JStr em_dash). split; [reflexivity | now left].
Qed.

Lemma typed_item_record (item : json) :
  typed_item item = true ->
  exists r, normalize_item item = Ok r /\ data_model_record r = true.
Proof.
  destruct item as [| | | | | | fields]; try discriminate. simpl.
  intros H.
  apply andb_true_iff in H as [H Ha].
  apply andb_true_iff in H as [H Ho].
  apply andb_true_iff in H as [H Hp].
  apply andb_true_iff in H as [Ht Hd].
  destruct (typed_title_Ok fields Ht) as [t Et].
  destruct (typed_doi_Ok fields Hd) as [d Ed].
  destruct (typed_year_Ok fields Hp Ho) as (y & Ey & Hy).
  destruct (item_authors_Ok fields Ha) as [a Ea].
  exists {| Title := JStr t; DOI := JStr d; Year := y; Authors := a |}.
  split.
  - unfold normalize_item. rewrite Et, Ed, Ey, Ea. reflexivity.
  - unfold data_model_record. simpl.
    destruct Hy as [-> | Hy]; [reflexivity |].
    destruct y; try discriminate. exact Hy.
Qed.

(** X15: items typed as Crossref types them (titles and DOI text, date
    components integers, authors objects with textual names), with any
    of these fields missing, are all accepted, and every record made of
    them has a textual title and identifier and an integer or textual
    year: they are records that the download writes and reads back. *)
Theorem typed_items_frame (items : list json) :
  forallb typed_item items = true ->
  exists df,
    normalize items = Ok df
    /\ length df = length items
    /\ forallb data_model_record df = true.
Proof.
  induction items as [| item rest IH]; cbn [forallb]; intros H.
  - exists []. now repeat split.
  - apply andb_true_iff in H as [Hi Hr].
    destruct (typed_item_record item Hi) as (r & Er & Dr).
    destruct (IH Hr) as (df & Edf & L & D).
    exists (r :: df). unfold normalize in *. cbn [for_each].
    rewrite Er, Edf. cbn [bind forallb length]. rewrite Dr, D, L.
    now repeat split.
Qed.

Lemma typed_items_frame_witness :
  forallb typed_item [Sample.work; JObj [("DOI", JStr "10.1000/x")]] = true
  /\ exists df,
       normalize [Sample.work; JObj [("DOI", JStr "10.1000/x")]] = Ok df
       /\ length df = 2%nat
       /\ forallb data_model_record df = true.
Proof.
  split; [reflexivity |].
  apply (typed_items_frame [Sample.work; JObj [("DOI", JStr "10.1000/x")]]).
  reflexivity.
Defined.

(** ** The authors of an item *)

Lemma for_each_app {A B : Type} (body : A -> result B) (xs ys : list A) :
  for_each body (xs ++ ys)
  = (bs <- for_each body xs ;;
     cs <- for_each body ys ;;
     Ok (bs ++ cs)%list).
Proof.
  induction xs as [| x xs IH]; cbn [app for_each].
  - cbn [bind]. now destruct (for_each body ys).
  - destruct (body x) as [b | e]; cbn [bind]; [| reflexivity].
    rewrite IH. destruct (for_each body xs) as [bs | e]; cbn [bind];
      [| reflexivity].
    now destruct (for_each body ys).
Qed.

(** X16: an author entry without given and family name, such as one
    that names an organisation, leaves no trace: the authors of an item
    are those of the same item without that entry. *)
Theorem nameless_author_ignored (fields fields' : list (string * json))
        (before after : list json) (author : json) :
  nameless author = true ->
  lookup "author" fields = Some (JArr (before ++ author :: after)) ->
  lookup "author" fields' = Some (JArr (before ++ after)) ->
  item_authors (JObj fields) = item_authors (JObj fields').
Proof.
  intros Hn L L'. unfold nameless in Hn.
  destruct (author_full_name author) as [n |] eqn:En; [| discriminate].
  apply String.eqb_eq in Hn. subst n.
  unfold item_authors, dict_get. rewrite L, L'. cbn [bind py_iter].
  rewrite !for_each_app. cbn [for_each]. rewrite En. cbn [bind].
  destruct (for_each author_full_name before) as [bs | e]; cbn [bind];
    [| reflexivity].
  destruct (for_each author_full_name after) as [cs | e]; cbn [bind];
    [| reflexivity].
  rewrite !filter_app. reflexivity.
Qed.

Lemma nameless_author_ignored_witness :
  item_authors
    (JObj [("author",
             JArr [JObj [("given", JStr "Ada"); ("family", JStr "Lovelace")];
                   JObj [("name", JStr "Analytical Society")];
                   JObj [("family", JStr "Babbage")]])])
  = Ok "Ada Lovelace; Babbage".
Proof.
  rewrite (nameless_author_ignored
             [("author",
                JArr [JObj [("given", JStr "Ada"); ("family", JStr "Lovelace")];
                      JObj [("name", JStr "Analytical Society")];
                      JObj [("family", JStr "Babbage")]])]
             [("author",
                JArr [JObj [("given", JStr "Ada"); ("family", JStr "Lovelace")];
                      JObj [("family", JStr "Babbage")]])]
             [JObj [("given", JStr "Ada"); ("family", JStr "Lovelace")]]
             [JObj [("family", JStr "Babbage")]]
             (JObj [("name", JStr "Analytical Society")])
             eq_refl eq_refl eq_refl).
  reflexivity.
Defined.

Lemma csv_round_trip_universal_witness :
  exists text,
    to_csv windows_linesep Sample.three_records = Some text
    /\ csv_read true text
       = columns
         :: [["Quantum walks"; "10.1000/qw"; "2021"; "Ada Lovelace"];
             [("Sets, maps and " ++ String dquote ("proofs" ++ String dquote ""))%string;
              ""; em_dash; "Unknown"];
             ["Earlier work"; "10.1000/old"; "2019"; "Ada Lovelace"]].
Proof.
  apply (csv_round_trip_universal windows_linesep Sample.three_records);
    [now right | reflexivity | reflexivity].
Defined.

(** ** More on the year, the responses and the text written *)

(** X18: a published-print object that is not empty is the only source
    of the year: when it carries no date parts the year is the
    placeholder, whatever published-online holds. *)
Theorem print_without_date_hides_online (fields p : list (string * json)) :
  lookup "published-print" fields = Some (JObj p) ->
  p <> [] ->
  no_date_parts (Some (JObj p)) = true ->
  item_year (JObj fields) = Ok (JStr em_dash).
Proof.
  intros L N D. unfold item_year.
  assert (truthy (JObj p) = true) as T by (destruct p; [contradiction | reflexivity]).
  destruct (item_published_cases fields)
    as [(p' & Ep & Tp & ->) | ([Ep | (p' & Ep & Tp)] & _)]; simpl.
  - rewrite L in Ep. inversion Ep; subst p'. now apply no_date_parts_dash.
  - congruence.
  - rewrite L in Ep. inversion Ep; subst p'. congruence.
Qed.

Lemma print_without_date_hides_online_witness :
  item_year
    (JObj [("published-print", JObj [("date-time", JStr "2021-03-01")]);
           ("published-online",
             JObj [("date-parts", JArr [JArr [JInt 2020; JInt 11]])])])
  = Ok (JStr em_dash).
Proof.
  apply (print_without_date_hides_online
           [("published-print", JObj [("date-time", JStr "2021-03-01")]);
            ("published-online",
              JObj [("date-parts", JArr [JArr [JInt 2020; JInt 11]])])]
           [("date-time", JStr "2021-03-01")]);
    [reflexivity | discriminate | reflexivity].
Defined.

Lemma index_redirect (get : world) (req : request) (g : cache)
      (location : string) :
  result_of (index get req g) = Returns (redirect location) ->
  location = "/"
  /\ globals (index get req g) = g
  /\ exists message, flashed (index get req g) = [message].
Proof.
  destruct (method req) eqn:M;
    try (unfold index; rewrite M; discriminate).
  destruct (String.eqb_spec (form_keyword req) "") as [K | K].
  - rewrite index_no_keyword by assumption. simpl.
    intros H; inversion H. eauto.
  - rewrite (index_search get req g M K). cbv zeta.
    destruct (fetch_crossref_results _ _ _) as [df | e].
    + destruct (empty df); simpl; unfold render_index; discriminate.
    + destruct e; simpl; intros H; inversion H; eauto.
Qed.

(** X19: whenever a view answers with a redirect, it goes to the form,
    exactly one message has been flashed and the cache is as it was; a
    view that renders the page or sends the file flashes at most the
    no-results message. *)
Theorem redirect_flashes_once (linesep : string) (get : world) (r : route)
        (g : cache) :
  (forall location,
      result_of (serve linesep get r g) = Returns (redirect location) ->
      location = "/"
      /\ globals (serve linesep get r g) = g
      /\ exists message, flashed (serve linesep get r g) = [message])
  /\ ((forall location,
          result_of (serve linesep get r g) <> Returns (redirect location)) ->
      flashed (serve linesep get r g) = []
      \/ flashed (serve linesep get r g)
         = ["No results found for that query after 2015."]).
Proof.
  split.
  - intros location. destruct r as [req |]; cbn [serve].
    + apply index_redirect.
    + unfold download_csv.
      destruct (_latest_results_df g) as [df |].
      * destruct (empty df);
          [simpl; intros H; inversion H; eauto |].
        cbn [result_of]. destruct (csv_bytes linesep df); discriminate.
      * simpl; intros H; inversion H; eauto.
  - intros H. destruct r as [req |]; cbn [serve] in *.
    + destruct (method req) eqn:M;
        try (left; unfold index; rewrite M; reflexivity).
      destruct (String.eqb_spec (form_keyword req) "") as [K | K].
      * exfalso. apply (H "/"). now rewrite index_no_keyword.
      * revert H. rewrite (index_search get req g M K). cbv zeta.
        destruct (fetch_crossref_results _ _ _) as [df | e].
        -- destruct (empty df); simpl; auto.
        -- destruct e; simpl; intros H; auto; exfalso; now apply (H "/").
    + revert H. unfold download_csv.
      destruct (_latest_results_df g) as [df |].
      * destruct (empty df); cbn [flashed result_of]; intros H;
          [exfalso; now apply (H "/") | now left].
      * simpl. intros H. exfalso. now apply (H "/").
Qed.

Lemma redirect_flashes_once_witness :
  result_of (serve posix_linesep (fun _ => Reply 500 NotJson)
                   (Index (Sample.search "logic" "10")) Sample.loaded_cache)
  = Returns (redirect "/")
  /\ exists message,
       flashed (serve posix_linesep (fun _ => Reply 500 NotJson)
                      (Index (Sample.search "logic" "10")) Sample.loaded_cache)
       = [message].
Proof.
  split; [reflexivity |].
  apply (proj1 (redirect_flashes_once posix_linesep (fun _ => Reply 500 NotJson)
                  (Index (Sample.search "logic" "10")) Sample.loaded_cache)
               "/").
  reflexivity.
Defined.

(** X20: the text written determines the cells: two frames that give
    the same CSV text have the same text in every cell, so have the same
    number of records. *)
Theorem to_csv_injective (linesep : string) (df df' : DataFrame)
        (rows rows' : list (list string)) (text : string) :
  platform_linesep linesep ->
  frame_cells df = Some rows ->
  frame_cells df' = Some rows' ->
  to_csv linesep df = Some text ->
  to_csv linesep df' = Some text ->
  rows = rows' /\ length df = length df'.
Proof.
  intros P C C' T T'.
  rewrite (to_csv_text linesep df rows C) in T.
  rewrite (to_csv_text linesep df' rows' C') in T'.
  pose proof (read_to_csv (occurs CR linesep) linesep rows P
                (fun H => H) (all_read_back_dialect linesep rows)) as R.
  pose proof (read_to_csv (occurs CR linesep) linesep rows' P
                (fun H => H) (all_read_back_dialect linesep rows')) as R'.
  assert ((csv_row linesep columns
           ++ concat_str (map (csv_row linesep) rows))%string
          = (csv_row linesep columns
             ++ concat_str (map (csv_row linesep) rows'))%string) as E
    by congruence.
  rewrite E, R' in R. inversion R; subst rows'. split; [reflexivity |].
  now rewrite <- (frame_cells_length df rows C),
              <- (frame_cells_length df' rows C').
Qed.

Lemma to_csv_injective_witness :
  [["Earlier work"; "10.1000/old"; "2019"; "Ada Lovelace"]]
  = [["Earlier work"; "10.1000/old"; "2019"; "Ada Lovelace"]]
  /\ length [Sample.old_record]
     = length [{| Title := JStr "Earlier work"; DOI := JStr "10.1000/old";
                  Year := JStr "2019"; Authors := "Ada Lovelace" |}].
Proof.
  exact (to_csv_injective posix_linesep [Sample.old_record]
           [{| Title := JStr "Earlier work"; DOI := JStr "10.1000/old";
               Year := JStr "2019"; Authors := "Ada Lovelace" |}]
           [["Earlier work"; "10.1000/old"; "2019"; "Ada Lovelace"]]
           [["Earlier work"; "10.1000/old"; "2019"; "Ada Lovelace"]]
           ("Title,DOI,Year,Authors"
            ++ String LF ("Earlier work,10.1000/old,2019,Ada Lovelace"
                          ++ String LF ""))%string
           (or_introl eq_refl) eq_refl eq_refl eq_refl eq_refl).
Defined.

(** The loop treats a list of items part by part: the frame of two
    lists put end to end is the frame of the first followed by the
    frame of the second, and the first exception met is raised. *)
Lemma normalize_app (items items' : list json) :
  normalize (items ++ items')
  = (df <- normalize items ;;
     df' <- normalize items' ;;
     Ok (df ++ df')%list).
Proof.
  apply for_each_app.
Qed.
